(** * GeoTutor ITS: the adaptive-tutoring core of [geotutor_main.py]

    A shallow embedding of the problem generator, the Bayesian Knowledge
    Tracing model, the answer-grading step and the profile store.

    Numbers.  Python [float] values are embedded as exact rationals ([Q]):
    arithmetic is the real-number arithmetic the binary64 operations
    approximate, and [round(x, n)] is rounding of the exact value to [n]
    decimals, ties to even.  Python [int] values are [Z]. *)

From Stdlib Require Import ZArith QArith Qround Qabs Lqa Lia List Ascii String.
From stdpp Require Import gmap strings.

Local Open Scope Q_scope.

(** ** Python numerics *)

Module Py.

(** Nearest integer, ties to the even neighbour. *)
Definition round_half_even (x : Q) : Z :=
  let f := Qfloor x in
  match Qcompare (x - inject_Z f) (1 # 2) with
  | Lt => f
  | Gt => (f + 1)%Z
  | Eq => if Z.even f then f else (f + 1)%Z
  end.

(** [round(x, ndigits)] on a float, [ndigits >= 0]. *)
Definition round (x : Q) (ndigits : Z) : Q :=
  let scale := inject_Z (10 ^ ndigits) in
  inject_Z (round_half_even (x * scale)) / scale.

End Py.

(** ** The Bayesian Knowledge Tracing student model (class [BKT]) *)

Record BKT := mkBKT {
  p_known : Q;
  p_guess : Q;
  p_slip : Q;
  p_learn : Q
}.

(** [BKT.__init__(self, initial=0.1)] *)
Definition BKT_init (initial : Q) : BKT :=
  {| p_known := initial; p_guess := 0.2; p_slip := 0.1; p_learn := 0.3 |}.

Definition set_p_known (self : BKT) (v : Q) : BKT :=
  {| p_known := v; p_guess := p_guess self;
     p_slip := p_slip self; p_learn := p_learn self |}.

(** The two locals [num] and [den] of [BKT.update]. *)
Definition update_num (self : BKT) (correct : bool) : Q :=
  if correct then p_known self * (1 - p_slip self)
  else p_known self * p_slip self.

Definition update_den (self : BKT) (correct : bool) : Q :=
  if correct then update_num self correct + (1 - p_known self) * p_guess self
  else update_num self correct + (1 - p_known self) * (1 - p_guess self).

(** [BKT.update(self, correct)]: the object after the call and the value
    returned. *)
Definition update (self : BKT) (correct : bool) : BKT * Q :=
  let num := update_num self correct in
  let den := update_den self correct in
  let self1 := if negb (Qeq_bool den 0) then set_p_known self (num / den) else self in
  let self2 := set_p_known self1 (p_known self1 + (1 - p_known self1) * p_learn self1) in
  (self2, Py.round (p_known self2) 3).

(** The stored [p_known] after each call of a sequence of updates. *)
Fixpoint update_trace (self : BKT) (obs : list bool) : list Q :=
  match obs with
  | nil => nil
  | c :: rest =>
      let self' := fst (update self c) in
      p_known self' :: update_trace self' rest
  end.

(** The update as the specification words it, on the stored value alone:
    parameters pGuess = 0.2, pSlip = 0.1, pLearn = 0.3; numerator and
    denominator by observation; the quotient when the denominator is not
    zero, else the prior; then the learning transfer. *)
Definition bkt_spec_update (pKnown : Q) (correct : bool) : Q :=
  let pGuess := 0.2 in
  let pSlip := 0.1 in
  let pLearn := 0.3 in
  let numerator := if correct then pKnown * (1 - pSlip) else pKnown * pSlip in
  let denominator :=
    if correct then numerator + (1 - pKnown) * pGuess
    else numerator + (1 - pKnown) * (1 - pGuess) in
  let posterior :=
    if Qeq_bool denominator 0 then pKnown else numerator / denominator in
  posterior + (1 - posterior) * pLearn.

(** ** The random source (module [random])

    The generator is process-wide state.  It is embedded as a tape of the
    fractions that successive primitive draws produce, each in [0, 1), and
    a read position.  [uniform] is the library's [a + (b - a) * random()];
    [randint(a, b)] picks [a + k] with [0 <= k <= b - a]. *)

Record Random := mkRandom {
  tape : nat -> Q;
  pos : nat
}.

Definition random (r : Random) : Q * Random :=
  (tape r (pos r), {| tape := tape r; pos := S (pos r) |}).

Definition uniform (a b : Q) (r : Random) : Q * Random :=
  let '(u, r') := random r in (a + (b - a) * u, r').

Definition randint (a b : Z) (r : Random) : Z * Random :=
  let '(u, r') := random r in
  ((a + Qfloor (u * inject_Z (b - a + 1)))%Z, r').

(** ** The problem generator ([generate_problem])

    A problem is the dict the function returns: named numbers, the integer
    ones embedded in [Q]. *)

Definition generate_problem (shape difficulty : string) (r : Random)
  : gmap string Q * Random :=
  if String.eqb difficulty "easy" then
    if String.eqb shape "Triangle" then
      let '(b, r) := randint 3 8 r in
      let '(h, r) := randint 3 8 r in
      (<["base" := inject_Z b]> (<["height" := inject_Z h]>
         {["area" := Py.round (0.5 * inject_Z b * inject_Z h) 2]}), r)
    else if String.eqb shape "Square" then
      let '(s, r) := randint 3 8 r in
      (<["side" := inject_Z s]> {["area" := inject_Z (s * s)]}, r)
    else
      let '(l, r) := randint 4 8 r in
      let '(w, r) := randint 3 6 r in
      (<["length" := inject_Z l]> (<["width" := inject_Z w]>
         {["area" := inject_Z (l * w)]}), r)
  else if String.eqb difficulty "medium" then
    if String.eqb shape "Triangle" then
      let '(b, r) := randint 6 12 r in
      let '(h, r) := uniform 5 10 r in
      (<["base" := inject_Z b]> (<["height" := Py.round h 1]>
         {["area" := Py.round (0.5 * inject_Z b * h) 2]}), r)
    else if String.eqb shape "Square" then
      let '(s, r) := randint 7 15 r in
      (<["side" := inject_Z s]> {["area" := inject_Z (s * s)]}, r)
    else
      let '(l, r) := randint 8 15 r in
      let '(w, r) := randint 5 10 r in
      (<["length" := inject_Z l]> (<["width" := inject_Z w]>
         {["area" := inject_Z (l * w)]}), r)
  else
    if String.eqb shape "Triangle" then
      let '(b, r) := uniform 8.0 20.0 r in
      let '(h, r) := uniform 6.0 15.0 r in
      (<["base" := Py.round b 1]> (<["height" := Py.round h 1]>
         {["area" := Py.round (0.5 * b * h) 2]}), r)
    else if String.eqb shape "Square" then
      let '(s, r) := uniform 10.0 25.0 r in
      (<["side" := Py.round s 1]> {["area" := Py.round (s * s) 2]}, r)
    else
      let '(l, r) := uniform 10.0 30.0 r in
      let '(w, r) := uniform 5.0 15.0 r in
      (<["length" := Py.round l 1]> (<["width" := Py.round w 1]>
         {["area" := Py.round (l * w) 2]}), r).

(** The closed-form area of a shape, read off a problem's own dimensions
    (specification side: Triangle = 0.5 * base * height, Square = side^2,
    Rectangle = length * width). *)
Definition closed_form_area (shape : string) (p : gmap string Q) : option Q :=
  if String.eqb shape "Triangle" then
    match p !! "base", p !! "height" with
    | Some b, Some h => Some (0.5 * b * h)
    | _, _ => None
    end
  else if String.eqb shape "Square" then
    match p !! "side" with
    | Some s => Some (s * s)
    | None => None
    end
  else
    match p !! "length", p !! "width" with
    | Some l, Some w => Some (l * w)
    | _, _ => None
    end.

(** ** Values of the tutor *)

(** What [float(text)] can yield: a finite number or one of the three
    special values (["inf"], ["-inf"], ["nan"] parse as floats). *)
Inductive pyfloat :=
| Finite (x : Q)
| PosInf
| NegInf
| NaN.

(** [abs(user - correct_area) < 0.1] for a finite [correct_area]: a
    comparison with a NaN or an infinite left-hand side is false. *)
Definition within_tolerance (user : pyfloat) (correct_area : Q) : bool :=
  match user with
  | Finite u =>
      match Qcompare (Qabs (u - correct_area)) 0.1 with
      | Lt => true
      | _ => false
      end
  | _ => false
  end.

(** [int(x)] on a float: truncation towards zero. *)
Definition py_int (x : Q) : Z :=
  if Qle_bool 0 x then Qfloor x else Qceiling x.

(** The scalar values a profile record holds once it went through JSON. *)
Inductive jval :=
| JInt (n : Z)
| JFloat (x : Q)
| JStr (s : string).

Inductive exn :=
| KeyError (key : string)
| TypeError.

Inductive result (A : Type) :=
| Ok (a : A)
| Raise (e : exn).
Arguments Ok {A} a.
Arguments Raise {A} e.

#[global] Instance result_bind : MBind result := fun A B k m =>
  match m with
  | Ok a => k a
  | Raise e => Raise e
  end.

(** [d.get(key, 0) + 1] on a profile dict. *)
Definition get_plus_one (d : gmap string jval) (key : string) : result jval :=
  match default (JInt 0) (d !! key) with
  | JInt n => Ok (JInt (n + 1))
  | JFloat x => Ok (JFloat (x + 1))
  | JStr _ => Raise TypeError
  end.

Inductive ui_event :=
| ShowError (title message : string)
| FeedbackAnswer (user : pyfloat) (correct_area : Q)
| FeedbackVerdict (correct : bool)
| ProblemShown (shape difficulty : string) (problem : gmap string Q)
| MasteryShown (pct : Z).

Definition STUDENTS_FILE : string := "students_data.json".

(** The difficulty branches of [_check_answer] (the [if correct: ... else:
    ...] block), on the strings the attribute holds. *)
Definition next_difficulty (correct : bool) (difficulty : string) : string :=
  if correct then
    if String.eqb difficulty "easy" then "medium"
    else if String.eqb difficulty "medium" then "hard"
    else difficulty
  else
    if String.eqb difficulty "hard" then "medium"
    else if String.eqb difficulty "medium" then "easy"
    else difficulty.

(** ** The session object and its world

    [self.profile] is a reference to the very dict stored under
    [STUDENTS_DB[student_id]] (line 155), so dicts live in a heap and both
    the global mapping and the session hold addresses into it. *)

Record GeoTutorApp := mkApp {
  student_id : string;
  profile : positive;
  bkt : BKT;
  difficulty : string;
  shape_var : string;
  current_problem : option (gmap string Q)
}.

Section Tutor.

(** The text of a file, and the two library calls on it:
    [json.dump(db, f, indent=2)] and [json.load(f)], the latter yielding
    [None] where the library raises [JSONDecodeError]. *)
Variable text : Type.
Variable json_dump : gmap string (gmap string jval) -> text.
Variable json_load : text -> option (gmap string (gmap string jval)).

(** [float(s)] on the text of the answer entry; [None] is [ValueError]. *)
Variable float_of_text : string -> option pyfloat.

Record World := mkWorld {
  STUDENTS_DB : gmap string positive;
  heap : gmap positive (gmap string jval);
  disk : gmap string text;
  rng : Random
}.

(** The value of the global mapping: every id with the dict it refers to. *)
Definition snapshot (db : gmap string positive)
    (h : gmap positive (gmap string jval)) : gmap string (gmap string jval) :=
  omap (fun l => h !! l) db.

(** *** The profile store *)

(** [os.rename(src, dst)] *)
Definition rename (src dst : string) (d : gmap string text) : gmap string text :=
  match d !! src with
  | Some contents => <[dst := contents]> (delete src d)
  | None => d
  end.

(** [load_students()]; [stamp] is the text of [datetime.now().timestamp()]. *)
Definition load_students (d : gmap string text) (stamp : string)
  : gmap string (gmap string jval) * gmap string text :=
  match d !! STUDENTS_FILE with
  | Some contents =>
      match json_load contents with
      | Some db => (db, d)
      | None => (∅, rename STUDENTS_FILE (STUDENTS_FILE +:+ ".bak_" +:+ stamp) d)
      end
  | None => (∅, d)
  end.

(** [save_students(db)] *)
Definition save_students (db : gmap string (gmap string jval))
    (d : gmap string text) : gmap string text :=
  <[STUDENTS_FILE := json_dump db]> d.

(** *** The session *)

(** [_save_profile(self, correct)]; [now] is the text of
    [datetime.now().isoformat(timespec="seconds")]. *)
Definition save_profile (self : GeoTutorApp) (w : World) (correct : bool)
    (now : string) : result World :=
  let d := default ∅ (heap w !! profile self) in
  let d := <["mastery" := JFloat (p_known (bkt self))]> d in
  let d := <["difficulty" := JStr (difficulty self)]> d in
  attempts ← get_plus_one d "attempts";
  let d := <["attempts" := attempts]> d in
  d ← (if correct
       then c ← get_plus_one d "correct"; Ok (<["correct" := c]> d)
       else Ok d);
  let d := <["last_login" := JStr now]> d in
  let h := <[profile self := d]> (heap w) in
  Ok {| STUDENTS_DB := STUDENTS_DB w;
        heap := h;
        disk := save_students (snapshot (STUDENTS_DB w) h) (disk w);
        rng := rng w |}.

(** [_new_problem(self)] *)
Definition new_problem (self : GeoTutorApp) (w : World)
  : GeoTutorApp * World * list ui_event :=
  let shape := shape_var self in
  let '(p, r) := generate_problem shape (difficulty self) (rng w) in
  ({| student_id := student_id self; profile := profile self; bkt := bkt self;
      difficulty := difficulty self; shape_var := shape_var self;
      current_problem := Some p |},
   {| STUDENTS_DB := STUDENTS_DB w; heap := heap w; disk := disk w; rng := r |},
   [ProblemShown shape (difficulty self) p;
    MasteryShown (py_int (p_known (bkt self) * 100))]).

(** [_check_answer(self)]; [entry] is the text of the answer entry. *)
Definition check_answer (self : GeoTutorApp) (w : World) (entry now : string)
  : result (GeoTutorApp * World * list ui_event) :=
  match current_problem self with
  | None => Ok (self, w, [])
  | Some p =>
      if bool_decide (size p = 0%nat) then Ok (self, w, []) else
      match float_of_text entry with
      | None => Ok (self, w, [ShowError "Error" "Please enter a number for the area."])
      | Some user =>
          match p !! "area" with
          | None => Raise (KeyError "area")
          | Some correct_area =>
              let correct := within_tolerance user correct_area in
              let self1 :=
                {| student_id := student_id self; profile := profile self;
                   bkt := fst (update (bkt self) correct);
                   difficulty := next_difficulty correct (difficulty self);
                   shape_var := shape_var self;
                   current_problem := current_problem self |} in
              w1 ← save_profile self1 w correct now;
              let '(self2, w2, shown) := new_problem self1 w1 in
              Ok (self2, w2,
                  [FeedbackAnswer user correct_area; FeedbackVerdict correct;
                   MasteryShown (py_int (p_known (bkt self1) * 100))] ++ shown)
          end
      end
  end.

(** Successive submissions, as the event loop dispatches them: each item
    is the entry text and the clock reading of one [_check_answer] call. *)
Fixpoint check_answers (self : GeoTutorApp) (w : World)
    (inputs : list (string * string))
  : result (GeoTutorApp * World * list ui_event) :=
  match inputs with
  | [] => Ok (self, w, [])
  | (entry, now) :: rest =>
      '(self1, w1, shown1) ← check_answer self w entry now;
      '(self2, w2, shown2) ← check_answers self1 w1 rest;
      Ok (self2, w2, shown1 ++ shown2)
  end.

End Tutor.

(** ** Readings used to state the properties *)

(** An integer counter of a profile: absent keys count as 0, as
    [d.get(key, 0)] reads them. *)
Definition counter (d : gmap string jval) (key : string) : option Z :=
  match d !! key with
  | None => Some 0%Z
  | Some (JInt n) => Some n
  | Some _ => None
  end.

(** The session with the mastery and the difficulty of a graded answer. *)
Definition graded (self : GeoTutorApp) (correct : bool) : GeoTutorApp :=
  {| student_id := student_id self; profile := profile self;
     bkt := fst (update (bkt self) correct);
     difficulty := next_difficulty correct (difficulty self);
     shape_var := shape_var self;
     current_problem := current_problem self |}.

(** The profile dict [_save_profile] leaves behind. *)
Definition saved_profile (self : GeoTutorApp) (correct : bool) (now : string)
    (prof : gmap string jval) (n k : Z) : gmap string jval :=
  let d := <["attempts" := JInt (n + 1)]>
             (<["difficulty" := JStr (difficulty self)]>
                (<["mastery" := JFloat (p_known (bkt self))]> prof)) in
  <["last_login" := JStr now]>
    (if correct then <["correct" := JInt (k + 1)]> d else d).

(** What grading needs of a session: its profile dict is allocated with
    integer (or absent) counters, and it holds a problem with an area, as
    every problem of [generate_problem] has. *)
Definition session_ok {text : Type} (self : GeoTutorApp) (w : World text) : Prop :=
  (exists prof n k,
      heap text w !! profile self = Some prof /\
      counter prof "attempts" = Some n /\ counter prof "correct" = Some k) /\
  (exists p area, current_problem self = Some p /\ p !! "area" = Some area).

(** ** A concrete world for the examples *)

Module Sample.

(** A reader of plain decimal literals ([digits] or [digits.digits]); it
    stands in for [float] on the entries used below. *)
Definition digit_of_ascii (c : ascii) : option Z :=
  let n := Z.of_nat (nat_of_ascii c) in
  if ((48 <=? n) && (n <=? 57))%Z then Some (n - 48)%Z else None.

Fixpoint decimal_digits (s : string) (mantissa : Z) (places : option Z)
  : option (Z * Z) :=
  match s with
  | EmptyString => Some (mantissa, default 0%Z places)
  | String c rest =>
      if Ascii.eqb c "."%char then
        match places with
        | None => decimal_digits rest mantissa (Some 0%Z)
        | Some _ => None
        end
      else
        match digit_of_ascii c with
        | Some d => decimal_digits rest (10 * mantissa + d)%Z (Z.succ <$> places)
        | None => None
        end
  end.

Definition decimal_literal (s : string) : option pyfloat :=
  match s with
  | EmptyString => None
  | _ =>
      match decimal_digits s 0%Z None with
      | Some (m, k) => Some (Finite (inject_Z m / inject_Z (10 ^ k)))
      | None => None
      end
  end.

(** File contents kept as the parsed tree, [None] for a file that does not
    parse. *)
Definition tree_text : Type := option (gmap string (gmap string jval)).
Definition tree_dump (db : gmap string (gmap string jval)) : tree_text := Some db.
Definition tree_load (t : tree_text) : option (gmap string (gmap string jval)) := t.

Definition s1_profile : gmap string jval :=
  <["mastery" := JFloat 0.1]> (<["difficulty" := JStr "easy"]>
    (<["attempts" := JInt 0]> (<["correct" := JInt 0]>
      {["last_login" := JStr "2024-01-01T09:00:00"]}))).

Definition s2_profile : gmap string jval :=
  <["mastery" := JFloat 0.8]> (<["difficulty" := JStr "hard"]>
    (<["attempts" := JInt 7]> (<["correct" := JInt 5]>
      {["last_login" := JStr "2023-12-24T18:30:00"]}))).

Definition triangle_4_6 : gmap string Q :=
  <["base" := 4]> (<["height" := 6]> {["area" := 12.0]}).

Definition world : World tree_text :=
  {| STUDENTS_DB := <["S1" := 1%positive]> {["S2" := 2%positive]};
     heap := <[1%positive := s1_profile]> {[2%positive := s2_profile]};
     disk := ∅;
     rng := {| tape := fun _ => 1 # 2; pos := 0 |} |}.

Definition app : GeoTutorApp :=
  {| student_id := "S1"; profile := 1%positive; bkt := BKT_init 0.1;
     difficulty := "easy"; shape_var := "Triangle";
     current_problem := Some triangle_4_6 |}.

(** A disk whose profile file does not parse. *)
Definition corrupt_disk : gmap string tree_text :=
  <[STUDENTS_FILE := None]> {["notes.txt" := Some ∅]}.

(** Random sources: every primitive draw yields the same fraction.  With
    14949/15000, [uniform(10.0, 25.0)] is 24.949; with 1/125,
    [randint(6, 12)] is 6 and [uniform(5, 10)] is 5.04. *)
Definition draws_hard : Random := {| tape := fun _ => 14949 # 15000; pos := 0 |}.
Definition draws_medium : Random := {| tape := fun _ => 1 # 125; pos := 0 |}.

End Sample.

(** ** The rest of the session: the constructor and the worked example *)

(** A piece of a formatted message: literal text, or a number the f-string
    formats in place. *)
Inductive piece :=
| Lit (s : string)
| Num (x : Q).

(** The line break of the message literals. *)
Definition nl : string := String (ascii_of_nat 10) EmptyString.

(** [d[key]] on a problem dict. *)
Definition item (d : gmap string Q) (key : string) : result Q :=
  match d !! key with
  | Some v => Ok v
  | None => Raise (KeyError key)
  end.

(** The exceptions that can leave [GeoTutorApp.__init__]. *)
Inductive init_exn :=
| ValueError
| OverflowError
| AttributeError.

Inductive init_result (A : Type) :=
| Built (a : A)
| InitRaise (e : init_exn).
Arguments Built {A} a.
Arguments InitRaise {A} e.

(** The profile dict [__init__] stores for an id it has not seen; [now] is
    the text of [datetime.now().isoformat(timespec="seconds")]. *)
Definition default_profile (now : string) : gmap string jval :=
  <["mastery" := JFloat 0.1]> (<["difficulty" := JStr "easy"]>
    (<["attempts" := JInt 0]> (<["correct" := JInt 0]>
      {["last_login" := JStr now]}))).

(** The sampling bounds of each stored dimension, as the arguments of the
    [randint] and [uniform] calls of [generate_problem] give them. *)
Definition dimension_bounds (shape difficulty : string)
  : list (string * (Q * Q)) :=
  if String.eqb difficulty "easy" then
    if String.eqb shape "Triangle" then [("base", (3, 8)); ("height", (3, 8))]
    else if String.eqb shape "Square" then [("side", (3, 8))]
    else [("length", (4, 8)); ("width", (3, 6))]
  else if String.eqb difficulty "medium" then
    if String.eqb shape "Triangle" then [("base", (6, 12)); ("height", (5, 10))]
    else if String.eqb shape "Square" then [("side", (7, 15))]
    else [("length", (8, 15)); ("width", (5, 10))]
  else
    if String.eqb shape "Triangle" then [("base", (8, 20)); ("height", (6, 15))]
    else if String.eqb shape "Square" then [("side", (10, 25))]
    else [("length", (10, 30)); ("width", (5, 15))].

(** The keys of the dict [generate_problem] returns for a shape. *)
Definition problem_keys (shape : string) : gset string :=
  if String.eqb shape "Triangle" then {["base"; "height"; "area"]}
  else if String.eqb shape "Square" then {["side"; "area"]}
  else {["length"; "width"; "area"]}.

(** Every primitive draw of the source is a fraction in [0, 1). *)
Definition draws_valid (r : Random) : Prop :=
  forall n, 0 <= tape r n < 1.

Section Session.

Variable text : Type.
Variable float_of_text : string -> option pyfloat.

(** [_show_example(self)]: the world after the call, and the title and the
    message of the [showinfo] dialog. *)
Definition show_example (self : GeoTutorApp) (w : World text)
  : result (World text * (string * list piece)) :=
  let shape := shape_var self in
  let '(ex, r) := generate_problem shape "easy" (rng text w) in
  let w' := {| STUDENTS_DB := STUDENTS_DB text w; heap := heap text w;
               disk := disk text w; rng := r |} in
  msg ← (if String.eqb shape "Triangle" then
           base ← item ex "base";
           height ← item ex "height";
           area ← item ex "area";
           Ok [Lit ("Triangle Example:" +:+ nl +:+ "Base = "); Num base;
               Lit ", Height = "; Num height;
               Lit (nl +:+ "Area = ½ × base × height = "); Num area]
         else if String.eqb shape "Square" then
           side ← item ex "side";
           area ← item ex "area";
           Ok [Lit ("Square Example:" +:+ nl +:+ "Side = "); Num side;
               Lit (nl +:+ "Area = side × side = "); Num area]
         else
           length ← item ex "length";
           width ← item ex "width";
           area ← item ex "area";
           Ok [Lit ("Rectangle Example:" +:+ nl +:+ "Length = "); Num length;
               Lit ", Width = "; Num width;
               Lit (nl +:+ "Area = length × width = "); Num area]);
  Ok (w', ("Worked Example", msg)).

(** [float(v)] on a value of a profile dict. *)
Definition float_of_jval (v : jval) : init_result pyfloat :=
  match v with
  | JInt n => Built (Finite (inject_Z n))
  | JFloat x => Built (Finite x)
  | JStr s =>
      match float_of_text s with
      | Some x => Built x
      | None => InitRaise ValueError
      end
  end.

(** [GeoTutorApp.__init__(self, root, student_id)]; [now] is the clock
    reading used for a new profile.  The model's [p_known] is read by
    [_build_ui] through [int(p_known * 100)], which raises on an infinity
    or a NaN; a [difficulty] that is not a string fails in [_new_problem]
    at [self.difficulty.capitalize()].  The product [p_known * 100] is
    taken over the rationals: it stands for the binary64 product as long
    as that does not overflow, so the properties below that read a stored
    mastery bound its magnitude. *)
Definition GeoTutorApp_init (w : World text) (sid now : string)
  : init_result (GeoTutorApp * World text * list ui_event) :=
  let '(l, w1) :=
    match STUDENTS_DB text w !! sid with
    | Some l => (l, w)
    | None =>
        let l := fresh (dom (heap text w)) in
        (l, {| STUDENTS_DB := <[sid := l]> (STUDENTS_DB text w);
               heap := <[l := default_profile now]> (heap text w);
               disk := disk text w; rng := rng text w |})
    end in
  let d := default ∅ (heap text w1 !! l) in
  match float_of_jval (default (JFloat 0.1) (d !! "mastery")) with
  | InitRaise e => InitRaise e
  | Built initial =>
      match initial with
      | NaN => InitRaise ValueError
      | PosInf | NegInf => InitRaise OverflowError
      | Finite x =>
          match default (JStr "easy") (d !! "difficulty") with
          | JStr level =>
              let self := {| student_id := sid; profile := l;
                             bkt := BKT_init x; difficulty := level;
                             shape_var := "Triangle";
                             current_problem := None |} in
              let '(self', w2, shown) := new_problem text self w1 in
              Built (self', w2, MasteryShown (py_int (x * 100)) :: shown)
          | _ => InitRaise AttributeError
          end
      end
  end.

End Session.

(** The verdicts a list of events reports, in order. *)
Fixpoint verdicts (shown : list ui_event) : list bool :=
  match shown with
  | [] => []
  | FeedbackVerdict c :: rest => c :: verdicts rest
  | _ :: rest => verdicts rest
  end.

(** The percentages a list of events puts on the mastery bar, in order. *)
Fixpoint percentages (shown : list ui_event) : list Z :=
  match shown with
  | [] => []
  | MasteryShown pct :: rest => pct :: percentages rest
  | _ :: rest => percentages rest
  end.

(** The keys [_show_example] reads from the example, in the order its
    message shows them. *)
Definition example_keys (shape : string) : list string :=
  if String.eqb shape "Triangle" then ["base"; "height"; "area"]
  else if String.eqb shape "Square" then ["side"; "area"]
  else ["length"; "width"; "area"].

(** The numbers a message shows, in order. *)
Fixpoint numbers (msg : list piece) : list Q :=
  match msg with
  | [] => []
  | Num x :: rest => x :: numbers rest
  | Lit _ :: rest => numbers rest
  end.


(** A second concrete world: no learner yet, and a random source whose
    draws are all 1/2. *)
Module Fresh.

Definition world : World Sample.tree_text :=
  {| STUDENTS_DB := ∅; heap := ∅; disk := ∅;
     rng := {| tape := fun _ => 1 # 2; pos := 0 |} |}.

Definition text_profile : gmap string jval :=
  <["mastery" := JFloat 0.5]> (<["difficulty" := JStr "medium"]>
    (<["attempts" := JStr "three"]> {["correct" := JInt 1]})).

Definition text_world : World Sample.tree_text :=
  {| STUDENTS_DB := {["S3" := 1%positive]};
     heap := {[1%positive := text_profile]};
     disk := ∅;
     rng := {| tape := fun _ => 1 # 2; pos := 0 |} |}.

Definition text_app : GeoTutorApp :=
  {| student_id := "S3"; profile := 1%positive; bkt := BKT_init 0.5;
     difficulty := "medium"; shape_var := "Square";
     current_problem := Some (<["side" := 4]> {["area" := 16]}) |}.

(** A world whose only learner has a mastery no number can be read from. *)
Definition unread_world : World Sample.tree_text :=
  {| STUDENTS_DB := {["S4" := 1%positive]};
     heap := {[1%positive := {["mastery" := JStr "high"]}]};
     disk := ∅;
     rng := {| tape := fun _ => 1 # 2; pos := 0 |} |}.

End Fresh.

(** ** The profile file as bytes

    [open(STUDENTS_FILE, "r")] hands [json.load] a text stream: reading it
    decodes the bytes of the file in the platform's text encoding, and
    bytes that are not valid there raise [UnicodeDecodeError] out of
    [json.load].  [load_students] catches [json.JSONDecodeError] only, so
    that exception leaves the function, before anything is renamed. *)

Inductive load_exn :=
| UnicodeDecodeError.

(** What a call leaves: a value and the disk, or an exception and the disk
    at the moment it is raised. *)
Inductive load_result (A D : Type) :=
| Loaded (a : A) (d : D)
| LoadRaise (e : load_exn) (d : D).
Arguments Loaded {A D} a d.
Arguments LoadRaise {A D} e d.

Section RawStore.

(** Decoded text; [decode] is the text layer of the stream ([None] is
    [UnicodeDecodeError]) and [json_loads] the parser on decoded text
    ([None] is [JSONDecodeError]). *)
Variable text : Type.
Variable decode : list Byte.byte -> option text.
Variable json_loads : text -> option (gmap string (gmap string jval)).

(** [load_students()] on a disk of bytes. *)
Definition load_students_raw (d : gmap string (list Byte.byte)) (stamp : string)
  : load_result (gmap string (gmap string jval)) (gmap string (list Byte.byte)) :=
  match d !! STUDENTS_FILE with
  | Some raw =>
      match decode raw with
      | None => LoadRaise UnicodeDecodeError d
      | Some s =>
          match json_loads s with
          | Some db => Loaded db d
          | None =>
              Loaded ∅ (rename (list Byte.byte) STUDENTS_FILE
                          (STUDENTS_FILE +:+ ".bak_" +:+ stamp) d)
          end
      end
  | None => Loaded ∅ d
  end.

End RawStore.

(** The UTF-8 encoding, the default text encoding of [open]: the code
    points of a byte sequence, or [None] where the strict decoder raises
    (a stray or missing continuation byte, an overlong form, a surrogate,
    a value past U+10FFFF). *)
Module Utf8.

Definition continuation (n : N) : bool := ((128 <=? n) && (n <=? 191))%N.

Fixpoint decode (l : list Byte.byte) : option (list N) :=
  match l with
  | [] => Some []
  | b0 :: rest =>
      let n0 := Byte.to_N b0 in
      if (n0 <? 128)%N then cons n0 <$> decode rest
      else if ((194 <=? n0) && (n0 <=? 223))%N then
        match rest with
        | b1 :: rest1 =>
            let n1 := Byte.to_N b1 in
            if continuation n1
            then cons ((n0 - 192) * 64 + (n1 - 128))%N <$> decode rest1
            else None
        | _ => None
        end
      else if ((224 <=? n0) && (n0 <=? 239))%N then
        match rest with
        | b1 :: b2 :: rest2 =>
            let n1 := Byte.to_N b1 in
            let n2 := Byte.to_N b2 in
            let cp := ((n0 - 224) * 4096 + (n1 - 128) * 64 + (n2 - 128))%N in
            if continuation n1 && continuation n2 && (2048 <=? cp)%N
               && negb ((55296 <=? cp) && (cp <=? 57343))%N
            then cons cp <$> decode rest2
            else None
        | _ => None
        end
      else if ((240 <=? n0) && (n0 <=? 244))%N then
        match rest with
        | b1 :: b2 :: b3 :: rest3 =>
            let n1 := Byte.to_N b1 in
            let n2 := Byte.to_N b2 in
            let n3 := Byte.to_N b3 in
            let cp := ((n0 - 240) * 262144 + (n1 - 128) * 4096
                       + (n2 - 128) * 64 + (n3 - 128))%N in
            if continuation n1 && continuation n2 && continuation n3
               && (65536 <=? cp)%N && (cp <=? 1114111)%N
            then cons cp <$> decode rest3
            else None
        | _ => None
        end
      else None
  end.

End Utf8.

(** A disk whose profile file is the two bytes FF FE, beside another file. *)
Definition undecodable_disk : gmap string (list Byte.byte) :=
  <[STUDENTS_FILE := [Byte.xff; Byte.xfe]]> {["notes.txt" := [Byte.x68; Byte.x69]]}.

(** * Properties *)

(** ** The mastery model *)

Section BKTFacts.

Lemma set_p_known_init p v : set_p_known (BKT_init p) v = BKT_init v.
Proof. reflexivity. Qed.

(** One call written out over the constructor parameters. *)
Lemma update_init p c :
  update (BKT_init p) c =
    (BKT_init (bkt_spec_update p c), Py.round (bkt_spec_update p c) 3).
Proof.
  unfold update, bkt_spec_update, update_den, update_num.
  destruct c; cbn [p_known p_guess p_slip p_learn BKT_init];
    match goal with |- context [Qeq_bool ?d 0] => destruct (Qeq_bool d 0) end;
    reflexivity.
Qed.

Lemma update_den_init_pos p c :
  0 <= p <= 1 -> 0 < update_den (BKT_init p) c.
Proof.
  intros [H0 H1]. unfold update_den, update_num.
  destruct c; cbn [p_known p_guess p_slip BKT_init]; lra.
Qed.

Lemma update_num_init_bounds p c :
  0 <= p <= 1 ->
  0 <= update_num (BKT_init p) c <= update_den (BKT_init p) c.
Proof.
  intros [H0 H1]. unfold update_den, update_num.
  destruct c; cbn [p_known p_guess p_slip BKT_init]; lra.
Qed.

(** The posterior of a prior in [0, 1] is a quotient in [0, 1]. *)
Lemma posterior_bounds p c :
  0 <= p <= 1 ->
  0 <= update_num (BKT_init p) c / update_den (BKT_init p) c <= 1.
Proof.
  intros Hp.
  pose proof (update_den_init_pos p c Hp) as Hd.
  pose proof (update_num_init_bounds p c Hp) as [Hn0 Hn1].
  split.
  - apply Qle_shift_div_l; [exact Hd | lra].
  - apply Qle_shift_div_r; [exact Hd | lra].
Qed.

Lemma Qeq_bool_false_of_pos d : 0 < d -> Qeq_bool d 0 = false.
Proof.
  intros Hd. destruct (Qeq_bool d 0) eqn:E; [|reflexivity].
  apply Qeq_bool_iff in E. lra.
Qed.

(** For a prior in [0, 1] the stored value after a call is the learning
    transfer of the quotient. *)
Lemma p_known_after_update p c :
  0 <= p <= 1 ->
  p_known (fst (update (BKT_init p) c)) =
    (let q := update_num (BKT_init p) c / update_den (BKT_init p) c in
     q + (1 - q) * 0.3).
Proof.
  intros Hp. unfold update.
  rewrite (Qeq_bool_false_of_pos _ (update_den_init_pos p c Hp)).
  reflexivity.
Qed.

Lemma p_known_after_update_bounds p c :
  0 <= p <= 1 ->
  0.3 <= p_known (fst (update (BKT_init p) c)) <= 1.
Proof.
  intros Hp. rewrite (p_known_after_update p c Hp). cbv zeta.
  pose proof (posterior_bounds p c Hp) as [H0 H1]. lra.
Qed.

Lemma fst_update_init p c :
  fst (update (BKT_init p) c) = BKT_init (p_known (fst (update (BKT_init p) c))).
Proof. rewrite update_init. reflexivity. Qed.

End BKTFacts.

(** C2.  On an object built by the constructor, whatever the prior and the
    observation, [update] stores the value the specification's formulas
    give (quotient of numerator and denominator when the denominator is
    not zero, then the learning transfer with [pLearn = 0.3]), leaves the
    three parameters as they were, and returns that stored value rounded
    to 3 decimals; the following call starts from the stored, unrounded
    value. *)
Theorem update_follows_spec_formulas :
  forall (pKnown : Q) (correct : bool),
    let self' := fst (update (BKT_init pKnown) correct) in
    let returned := snd (update (BKT_init pKnown) correct) in
    p_known self' = bkt_spec_update pKnown correct /\
    (p_guess self', p_slip self', p_learn self') = (0.2, 0.1, 0.3) /\
    returned = Py.round (bkt_spec_update pKnown correct) 3 /\
    forall next : bool,
      p_known (fst (update self' next)) =
        bkt_spec_update (bkt_spec_update pKnown correct) next.
Proof.
  intros pKnown correct. cbv zeta. rewrite update_init. cbn [fst snd].
  repeat split. intros next. rewrite update_init. reflexivity.
Qed.

(** The rounding is visible: from the default prior 0.1 a correct answer
    stores 8/15 and returns 0.533, and the next call continues from 8/15. *)
Example update_rounds_only_the_return :
  let '(self', returned) := update (BKT_init 0.1) true in
  p_known self' == 8 # 15 /\ returned == 0.533 /\
  ~ p_known (fst (update self' true)) ==
    p_known (fst (update (BKT_init returned) true)).
Proof. vm_compute. repeat split; discriminate. Qed.

(** C9.  For a prior in [0, 1] and either observation the denominator of
    [update] is not zero (it is positive), so the call takes the dividing
    branch: the stored value is the learning transfer of
    numerator / denominator. *)
Theorem update_denominator_nonzero :
  forall (pKnown : Q) (correct : bool),
    0 <= pKnown <= 1 ->
    ~ update_den (BKT_init pKnown) correct == 0 /\
    Qeq_bool (update_den (BKT_init pKnown) correct) 0 = false /\
    p_known (fst (update (BKT_init pKnown) correct)) =
      (let q := update_num (BKT_init pKnown) correct
                / update_den (BKT_init pKnown) correct in
       q + (1 - q) * 0.3).
Proof.
  intros p c Hp. pose proof (update_den_init_pos p c Hp) as Hd.
  split; [lra|]. split.
  - apply Qeq_bool_false_of_pos, Hd.
  - apply p_known_after_update, Hp.
Qed.

Lemma update_denominator_nonzero_witness :
  0 <= 0.1 <= 1 /\
  ~ update_den (BKT_init 0.1) false == 0.
Proof.
  split; [lra|]. apply (update_denominator_nonzero 0.1 false). lra.
Defined.

(** C3.  From an initial mastery in [0, 1], after every call of any finite
    sequence of observations the stored [p_known] is in [0, 1]. *)
Theorem mastery_stays_in_unit_interval :
  forall (initial : Q) (obs : list bool),
    0 <= initial <= 1 ->
    Forall (fun p => 0 <= p <= 1) (update_trace (BKT_init initial) obs).
Proof.
  intros initial obs. revert initial.
  induction obs as [|c rest IH]; intros initial Hp; cbn [update_trace].
  - constructor.
  - pose proof (p_known_after_update_bounds initial c Hp) as [Hlo Hhi].
    constructor.
    + lra.
    + rewrite fst_update_init. apply IH. lra.
Qed.

Lemma mastery_stays_in_unit_interval_witness :
  0 <= 0.1 <= 1 /\
  Forall (fun p => 0 <= p <= 1)
    (update_trace (BKT_init 0.1) [true; false; false; true]).
Proof.
  split; [lra|]. apply (mastery_stays_in_unit_interval 0.1); lra.
Defined.

(** C10.  For a prior in [0, 1] and either observation the stored
    [p_known] after one call is at least 0.3, the value of [p_learn]. *)
Theorem mastery_at_least_p_learn :
  forall (pKnown : Q) (correct : bool),
    0 <= pKnown <= 1 ->
    p_learn (BKT_init pKnown) == 0.3 /\
    0.3 <= p_known (fst (update (BKT_init pKnown) correct)).
Proof.
  intros p c Hp. split; [reflexivity|].
  apply (p_known_after_update_bounds p c Hp).
Qed.

Lemma mastery_at_least_p_learn_witness :
  0 <= 0 <= 1 /\ 0.3 <= p_known (fst (update (BKT_init 0) false)).
Proof.
  split; [lra|]. apply (mastery_at_least_p_learn 0 false). lra.
Defined.

(** ** The session *)

Section TutorFacts.

Context {text : Type}.
Variable json_dump : gmap string (gmap string jval) -> text.
Variable json_load : text -> option (gmap string (gmap string jval)).
Variable float_of_text : string -> option pyfloat.

Lemma within_tolerance_spec user area :
  within_tolerance user area = true <->
  exists u, user = Finite u /\ Qabs (u - area) < 0.1.
Proof.
  unfold within_tolerance. split.
  - destruct user as [u| | |]; try discriminate.
    destruct (Qcompare (Qabs (u - area)) 0.1) eqn:E; try discriminate.
    intros _. exists u. split; [reflexivity | exact E].
  - intros (u & -> & H).
    destruct (Qcompare (Qabs (u - area)) 0.1) eqn:E; [|reflexivity|].
    + apply Qeq_alt in E. lra.
    + apply Qgt_alt in E. lra.
Qed.

Lemma get_plus_one_counter d key n :
  counter d key = Some n -> get_plus_one d key = Ok (JInt (n + 1)).
Proof.
  unfold counter, get_plus_one.
  destruct (d !! key) as [[m|x|s]|]; cbn; intros H; try discriminate;
    injection H as <-; reflexivity.
Qed.

Lemma save_profile_ok self (w : World text) correct now prof n k :
  heap text w !! profile self = Some prof ->
  counter prof "attempts" = Some n ->
  counter prof "correct" = Some k ->
  save_profile text json_dump self w correct now =
    Ok (let h := <[profile self := saved_profile self correct now prof n k]>
                   (heap text w) in
        {| STUDENTS_DB := STUDENTS_DB text w;
           heap := h;
           disk := save_students text json_dump
                     (snapshot (STUDENTS_DB text w) h) (disk text w);
           rng := rng text w |}).
Proof.
  intros Hprof Hn Hk. unfold save_profile. rewrite Hprof. cbn [default].
  rewrite (get_plus_one_counter _ "attempts" n).
  2:{ unfold counter. rewrite !lookup_insert_ne by done. exact Hn. }
  cbn [mbind result_bind].
  destruct correct.
  - rewrite (get_plus_one_counter _ "correct" k).
    2:{ unfold counter. rewrite !lookup_insert_ne by done. exact Hk. }
    reflexivity.
  - reflexivity.
Qed.

Lemma saved_profile_attempts self correct now prof n k :
  counter (saved_profile self correct now prof n k) "attempts" = Some (n + 1)%Z.
Proof.
  unfold counter, saved_profile. destruct correct;
    rewrite !lookup_insert_ne by done; rewrite lookup_insert_eq; reflexivity.
Qed.

Lemma saved_profile_correct self correct now prof n k :
  counter prof "correct" = Some k ->
  counter (saved_profile self correct now prof n k) "correct" =
    Some (if correct then (k + 1)%Z else k).
Proof.
  intros Hk. unfold counter, saved_profile. destruct correct.
  - rewrite lookup_insert_ne by done. rewrite lookup_insert_eq. reflexivity.
  - rewrite !lookup_insert_ne by done. exact Hk.
Qed.

Lemma new_problem_fields self (w : World text) :
  let '(self', w', shown) := new_problem text self w in
  student_id self' = student_id self /\ profile self' = profile self /\
  bkt self' = bkt self /\ difficulty self' = difficulty self /\
  STUDENTS_DB text w' = STUDENTS_DB text w /\ heap text w' = heap text w /\
  disk text w' = disk text w /\
  (forall c, In (FeedbackVerdict c) shown -> False).
Proof.
  unfold new_problem. destruct (generate_problem _ _ _) as [p r].
  cbn. repeat split; try reflexivity. intros c [H|[H|[]]]; discriminate.
Qed.

(** A parsed answer on a session that holds a problem is graded: the call
    returns, and its result is the one written out here. *)
Lemma check_answer_graded self (w : World text) entry now p area user prof n k :
  current_problem self = Some p ->
  p !! "area" = Some area ->
  float_of_text entry = Some user ->
  heap text w !! profile self = Some prof ->
  counter prof "attempts" = Some n ->
  counter prof "correct" = Some k ->
  let correct := within_tolerance user area in
  let self1 := graded self correct in
  let h := <[profile self := saved_profile self1 correct now prof n k]>
             (heap text w) in
  let w1 := {| STUDENTS_DB := STUDENTS_DB text w; heap := h;
               disk := save_students text json_dump
                         (snapshot (STUDENTS_DB text w) h) (disk text w);
               rng := rng text w |} in
  check_answer text json_dump float_of_text self w entry now =
    Ok (let '(self2, w2, shown) := new_problem text self1 w1 in
        (self2, w2,
         [FeedbackAnswer user area; FeedbackVerdict correct;
          MasteryShown (py_int (p_known (bkt self1) * 100))] ++ shown)).
Proof.
  intros Hp Harea Huser Hprof Hn Hk. cbv zeta.
  pose proof (save_profile_ok (graded self (within_tolerance user area))
                w (within_tolerance user area) now prof n k Hprof Hn Hk) as Hs.
  unfold check_answer, graded in Hs |- *. rewrite Hp in Hs |- *.
  rewrite bool_decide_eq_false_2.
  2:{ apply (map_size_ne_0_lookup_2 p "area"). rewrite Harea. eauto. }
  rewrite Huser, Harea.
  rewrite Hs.
  cbn [mbind result_bind].
  destruct (new_problem text _ _) as [[self2 w2] shown]. reflexivity.
Qed.

Lemma generate_problem_has_area shape difficulty r :
  exists area, fst (generate_problem shape difficulty r) !! "area" = Some area.
Proof.
  unfold generate_problem, uniform, randint, random.
  repeat match goal with
         | |- context [String.eqb ?a ?b] => destruct (String.eqb a b)
         end;
    cbn [fst]; rewrite ?lookup_insert_ne by done;
    rewrite lookup_singleton_eq; eauto.
Qed.

(** Every call either leaves the session as it was and reports no verdict,
    or reports one verdict and moves the difficulty by it. *)
Lemma check_answer_cases self (w : World text) entry now self' w' shown :
  check_answer text json_dump float_of_text self w entry now = Ok (self', w', shown) ->
  (self' = self /\ forall c, ~ In (FeedbackVerdict c) shown) \/
  (exists c, (forall c', In (FeedbackVerdict c') shown -> c' = c) /\
             In (FeedbackVerdict c) shown /\
             difficulty self' = next_difficulty c (difficulty self)).
Proof.
  unfold check_answer.
  destruct (current_problem self) as [p|] eqn:Hp.
  2:{ intros [= <- <- <-]. left. split; [reflexivity | intros c []]. }
  destruct (bool_decide (size p = 0%nat)).
  { intros [= <- <- <-]. left. split; [reflexivity | intros c []]. }
  destruct (float_of_text entry) as [user|].
  2:{ intros [= <- <- <-]. left. split; [reflexivity|].
      intros c [H|[]]; discriminate. }
  destruct (p !! "area") as [area|]; [|discriminate].
  destruct (save_profile _ _ _ _ _ _) as [w1|e]; [|discriminate].
  cbn [mbind result_bind].
  match goal with |- context [new_problem text ?s ?x] =>
    pose proof (new_problem_fields s x) as Hnew;
    destruct (new_problem text s x) as [[self2 w2] shown2] end.
  destruct Hnew as (_ & _ & _ & Hd & _ & _ & _ & Hnone).
  intros [= <- <- <-]. right. exists (within_tolerance user area).
  split; [|split].
  - intros c' [H|[H|[H|H]]]; try discriminate.
    + injection H as <-. reflexivity.
    + destruct (Hnone c' H).
  - right. left. reflexivity.
  - exact Hd.
Qed.

Lemma check_answer_keeps_ok self (w : World text) entry now :
  session_ok self w ->
  exists self' w' shown,
    check_answer text json_dump float_of_text self w entry now = Ok (self', w', shown) /\
    session_ok self' w'.
Proof.
  intros Hok.
  destruct (float_of_text entry) as [user|] eqn:Huser.
  - destruct Hok as [(prof & n & k & Hprof & Hn & Hk) (p & area & Hp & Harea)].
    pose proof (check_answer_graded self w entry now p area user prof n k
                  Hp Harea Huser Hprof Hn Hk) as Hg.
    cbv zeta in Hg. rewrite Hg. clear Hg.
    match goal with |- context [new_problem text ?s ?x] =>
      pose proof (new_problem_fields s x) as Hnew;
      assert (exists q a, current_problem (new_problem text s x).1.1 = Some q /\
                          q !! "area" = Some a) as Hcur
    end.
    { unfold new_problem.
      match goal with |- context [generate_problem ?a ?b ?c] =>
        destruct (generate_problem_has_area a b c) as [ar Har];
        destruct (generate_problem a b c) as [q r] end.
      cbn in *. eauto. }
    destruct (new_problem text _ _) as [[self2 w2] shown2].
    destruct Hnew as (_ & Hpr & _ & _ & _ & Hh & _ & _).
    eexists _, _, _. split; [reflexivity|]. split.
    + exists (saved_profile (graded self (within_tolerance user area))
                (within_tolerance user area) now prof n k), (n + 1)%Z,
             (if within_tolerance user area then (k + 1)%Z else k).
      rewrite Hh, Hpr. cbn [heap profile graded].
      rewrite lookup_insert_eq. split; [reflexivity|]. split.
      * apply saved_profile_attempts.
      * apply saved_profile_correct, Hk.
    + exact Hcur.
  - exists self, w. eexists. split; [|exact Hok].
    destruct Hok as [_ (p & area & Hp & Harea)].
    unfold check_answer. rewrite Hp, Huser.
    rewrite bool_decide_eq_false_2; [reflexivity|].
    apply (map_size_ne_0_lookup_2 p "area"). rewrite Harea. eauto.
Qed.

(** A run of submissions on a session that can be graded returns, and when
    every verdict it reports is [v] and [v] leaves the level [d] in place,
    the run ends at [d]. *)
Lemma check_answers_saturate v d inputs :
  next_difficulty v d = d ->
  forall self (w : World text),
    session_ok self w ->
    exists self' w' shown,
      check_answers text json_dump float_of_text self w inputs = Ok (self', w', shown) /\
      ((forall c, In (FeedbackVerdict c) shown -> c = v) ->
       difficulty self = d -> difficulty self' = d).
Proof.
  intros Hfix. induction inputs as [|[entry now] rest IH]; intros self w Hok.
  - exists self, w, []. split; [reflexivity | auto].
  - destruct (check_answer_keeps_ok self w entry now Hok)
      as (self1 & w1 & shown1 & Hstep & Hok1).
    destruct (IH self1 w1 Hok1) as (self2 & w2 & shown2 & Hrun & Hkeep).
    exists self2, w2, (shown1 ++ shown2). split.
    + cbn [check_answers]. rewrite Hstep. cbn [mbind result_bind].
      rewrite Hrun. reflexivity.
    + intros Hall Hd. apply Hkeep.
      * intros c Hc. apply Hall, in_or_app. right. exact Hc.
      * destruct (check_answer_cases _ _ _ _ _ _ _ Hstep)
          as [[-> _] | (c & _ & Hin & Hnext)]; [exact Hd|].
        rewrite Hnext, Hd.
        rewrite (Hall c) by (apply in_or_app; left; exact Hin).
        exact Hfix.
Qed.

(** C4.  Grading a parsed answer returns and moves the difficulty one
    step: judged correct, easy becomes medium, medium becomes hard and hard
    stays hard; judged incorrect, hard becomes medium, medium becomes easy
    and easy stays easy.  A run of submissions whose verdicts are all
    correct keeps a hard session hard, and one whose verdicts are all
    incorrect keeps an easy session easy. *)
Theorem grading_moves_difficulty_one_step :
  (forall self (w : World text) entry now p area user prof n k,
      current_problem self = Some p ->
      p !! "area" = Some area ->
      float_of_text entry = Some user ->
      heap text w !! profile self = Some prof ->
      counter prof "attempts" = Some n ->
      counter prof "correct" = Some k ->
      exists self' w' shown,
        check_answer text json_dump float_of_text self w entry now
          = Ok (self', w', shown) /\
        (within_tolerance user area = true ->
           (difficulty self = "easy" -> difficulty self' = "medium") /\
           (difficulty self = "medium" -> difficulty self' = "hard") /\
           (difficulty self = "hard" -> difficulty self' = "hard")) /\
        (within_tolerance user area = false ->
           (difficulty self = "hard" -> difficulty self' = "medium") /\
           (difficulty self = "medium" -> difficulty self' = "easy") /\
           (difficulty self = "easy" -> difficulty self' = "easy"))) /\
  (forall self (w : World text) inputs,
      session_ok self w ->
      exists self' w' shown,
        check_answers text json_dump float_of_text self w inputs
          = Ok (self', w', shown) /\
        ((forall c, In (FeedbackVerdict c) shown -> c = true) ->
         difficulty self = "hard" -> difficulty self' = "hard") /\
        ((forall c, In (FeedbackVerdict c) shown -> c = false) ->
         difficulty self = "easy" -> difficulty self' = "easy")).
Proof.
  split.
  - intros self w entry now p area user prof n k Hp Harea Huser Hprof Hn Hk.
    pose proof (check_answer_graded self w entry now p area user prof n k
                  Hp Harea Huser Hprof Hn Hk) as Hg.
    cbv zeta in Hg.
    match type of Hg with context [new_problem text ?s ?x] =>
      pose proof (new_problem_fields s x) as Hnew;
      destruct (new_problem text s x) as [[self2 w2] shown2] end.
    destruct Hnew as (_ & _ & _ & Hd & _).
    eexists _, _, _. split; [exact Hg|]. rewrite Hd. cbn [difficulty graded].
    split; intros ->; repeat split; intros ->; reflexivity.
  - intros self w inputs Hok.
    destruct (check_answers_saturate true "hard" inputs eq_refl self w Hok)
      as (s1 & w1 & sh1 & Hrun1 & Hhard).
    destruct (check_answers_saturate false "easy" inputs eq_refl self w Hok)
      as (s2 & w2 & sh2 & Hrun2 & Heasy).
    rewrite Hrun1 in Hrun2. injection Hrun2 as <- <- <-.
    exists s1, w1, sh1. auto.
Qed.

(** C5.  Grading a parsed answer returns; the verdict it reports and uses
    is [|value - correctArea| < 0.1]; in the profile dict of the session
    [attempts] has grown by exactly 1 and [correct] by exactly 1 when the
    verdict is correct and by 0 otherwise; and the file then holds the dump
    of the whole mapping, in which the learner's entry is that dict. *)
Theorem submit_answer_counts_and_persists :
  forall self (w : World text) entry now p area user prof n k,
    current_problem self = Some p ->
    p !! "area" = Some area ->
    float_of_text entry = Some user ->
    STUDENTS_DB text w !! student_id self = Some (profile self) ->
    heap text w !! profile self = Some prof ->
    counter prof "attempts" = Some n ->
    counter prof "correct" = Some k ->
    exists self' w' shown prof' correct,
      check_answer text json_dump float_of_text self w entry now
        = Ok (self', w', shown) /\
      (correct = true <-> exists u, user = Finite u /\ Qabs (u - area) < 0.1) /\
      In (FeedbackVerdict correct) shown /\
      bkt self' = fst (update (bkt self) correct) /\
      heap text w' !! profile self = Some prof' /\
      counter prof' "attempts" = Some (n + 1)%Z /\
      counter prof' "correct" = Some (if correct then (k + 1)%Z else k) /\
      STUDENTS_DB text w' = STUDENTS_DB text w /\
      snapshot (STUDENTS_DB text w') (heap text w') !! student_id self = Some prof' /\
      disk text w' !! STUDENTS_FILE =
        Some (json_dump (snapshot (STUDENTS_DB text w') (heap text w'))).
Proof.
  intros self w entry now p area user prof n k Hp Harea Huser Halias Hprof Hn Hk.
  pose proof (check_answer_graded self w entry now p area user prof n k
                Hp Harea Huser Hprof Hn Hk) as Hg.
  cbv zeta in Hg.
  match type of Hg with context [new_problem text ?s ?x] =>
    pose proof (new_problem_fields s x) as Hnew;
    destruct (new_problem text s x) as [[self2 w2] shown2] end.
  destruct Hnew as (_ & _ & Hb & _ & Hdb & Hh & Hdisk & _).
  cbn [STUDENTS_DB heap disk bkt graded profile] in Hb, Hdb, Hh, Hdisk.
  eexists self2, w2, _,
    (saved_profile (graded self (within_tolerance user area))
       (within_tolerance user area) now prof n k),
    (within_tolerance user area).
  split; [exact Hg|].
  split; [apply within_tolerance_spec|].
  split; [right; left; reflexivity|].
  split; [exact Hb|].
  rewrite Hh, Hdb, Hdisk.
  split; [apply lookup_insert_eq|].
  split; [apply saved_profile_attempts|].
  split; [apply saved_profile_correct, Hk|].
  split; [reflexivity|].
  split.
  - unfold snapshot. rewrite lookup_omap, Halias. cbn. apply lookup_insert_eq.
  - unfold save_students. apply lookup_insert_eq.
Qed.

(** C6.  When the entry text does not parse as a number, the call shows
    the error dialog and returns with the session and the world (mapping,
    profile dicts, files, random source) exactly as they were. *)
Theorem non_numeric_answer_changes_nothing :
  forall self (w : World text) entry now p,
    current_problem self = Some p ->
    size p <> 0%nat ->
    float_of_text entry = None ->
    check_answer text json_dump float_of_text self w entry now =
      Ok (self, w, [ShowError "Error" "Please enter a number for the area."]).
Proof.
  intros self w entry now p Hp Hsize Hparse.
  unfold check_answer. rewrite Hp, Hparse.
  rewrite bool_decide_eq_false_2 by exact Hsize. reflexivity.
Qed.

(** ** The profile store *)

Lemma backup_name_fresh stamp :
  STUDENTS_FILE +:+ ".bak_" +:+ stamp <> STUDENTS_FILE.
Proof. unfold STUDENTS_FILE. cbn. intros H. discriminate H. Qed.

(** X23.  When the profile file exists and [json.load] rejects its text
    with [JSONDecodeError], [load_students] returns the empty mapping and
    a disk on which the contents sit unchanged under
    [students_data.json.bak_<timestamp>], the original name is gone, and
    every other file is as before. *)
Theorem load_quarantines_corrupt_file :
  forall (d : gmap string text) stamp contents,
    d !! STUDENTS_FILE = Some contents ->
    json_load contents = None ->
    exists d',
      load_students text json_load d stamp = (∅, d') /\
      d' !! (STUDENTS_FILE +:+ ".bak_" +:+ stamp) = Some contents /\
      d' !! STUDENTS_FILE = None /\
      forall path,
        path <> STUDENTS_FILE +:+ ".bak_" +:+ stamp ->
        path <> STUDENTS_FILE ->
        d' !! path = d !! path.
Proof.
  intros d stamp contents Hfile Hbad.
  unfold load_students, rename. rewrite Hfile, Hbad.
  eexists. split; [reflexivity|]. split; [|split].
  - apply lookup_insert_eq.
  - rewrite lookup_insert_ne by apply backup_name_fresh.
    apply lookup_delete_eq.
  - intros path Hb Hs.
    rewrite lookup_insert_ne by congruence.
    rewrite lookup_delete_ne by congruence. reflexivity.
Qed.

(** C8.  With a JSON library whose [load] inverts its [dump], loading
    after a save returns the mapping that was saved and leaves the file in
    place. *)
Theorem save_then_load_roundtrip :
  (forall db, json_load (json_dump db) = Some db) ->
  forall (m : gmap string (gmap string jval)) (d : gmap string text) stamp,
    load_students text json_load (save_students text json_dump m d) stamp =
      (m, save_students text json_dump m d).
Proof.
  intros Hcodec m d stamp. unfold load_students, save_students.
  rewrite lookup_insert_eq, Hcodec. reflexivity.
Qed.

End TutorFacts.

Lemma grading_moves_difficulty_one_step_witness :
  exists self' w' shown,
    check_answer Sample.tree_text Sample.tree_dump Sample.decimal_literal
      Sample.app Sample.world "12.05" "2024-01-02T10:00:00" = Ok (self', w', shown) /\
    difficulty self' = "medium".
Proof.
  destruct (proj1 (grading_moves_difficulty_one_step
                     Sample.tree_dump Sample.decimal_literal)
              Sample.app Sample.world "12.05" "2024-01-02T10:00:00"
              Sample.triangle_4_6 12.0 (Finite 12.05) Sample.s1_profile 0%Z 0%Z
              eq_refl eq_refl eq_refl eq_refl eq_refl eq_refl)
    as (self' & w' & shown & Hrun & Hup & _).
  exists self', w', shown. split; [exact Hrun|].
  apply Hup; reflexivity.
Defined.

Lemma submit_answer_counts_and_persists_witness :
  exists self' w' shown,
    check_answer Sample.tree_text Sample.tree_dump Sample.decimal_literal
      Sample.app Sample.world "12.2" "2024-01-02T10:00:00" = Ok (self', w', shown) /\
    exists prof',
      disk _ w' !! STUDENTS_FILE =
        Some (Some (snapshot (STUDENTS_DB _ w') (heap _ w'))) /\
      snapshot (STUDENTS_DB _ w') (heap _ w') !! "S1" = Some prof' /\
      counter prof' "attempts" = Some 1%Z.
Proof.
  destruct (submit_answer_counts_and_persists
              Sample.tree_dump Sample.decimal_literal
              Sample.app Sample.world "12.2" "2024-01-02T10:00:00"
              Sample.triangle_4_6 12.0 (Finite 12.2) Sample.s1_profile 0%Z 0%Z
              eq_refl eq_refl eq_refl eq_refl eq_refl eq_refl eq_refl)
    as (self' & w' & shown & prof' & correct & Hrun & _ & _ & _ & _ & Hatt & _ & _
        & Hsnap & Hdisk).
  exists self', w', shown. split; [exact Hrun|].
  exists prof'. split; [exact Hdisk|]. split; [exact Hsnap | exact Hatt].
Defined.

Lemma non_numeric_answer_changes_nothing_witness :
  Sample.decimal_literal "twelve" = None /\
  check_answer Sample.tree_text Sample.tree_dump Sample.decimal_literal
    Sample.app Sample.world "twelve" "2024-01-02T10:00:00" =
    Ok (Sample.app, Sample.world,
        [ShowError "Error" "Please enter a number for the area."]).
Proof.
  split; [reflexivity|].
  apply (non_numeric_answer_changes_nothing
           Sample.tree_dump Sample.decimal_literal
           Sample.app Sample.world "twelve" "2024-01-02T10:00:00"
           Sample.triangle_4_6 eq_refl).
  - vm_compute. discriminate.
  - reflexivity.
Defined.

Lemma load_quarantines_corrupt_file_witness :
  exists d',
    load_students Sample.tree_text Sample.tree_load Sample.corrupt_disk "1704189600.25"
      = (∅, d') /\
    d' !! "students_data.json.bak_1704189600.25" = Some None /\
    d' !! "students_data.json" = None /\
    d' !! "notes.txt" = Some (Some ∅).
Proof.
  destruct (load_quarantines_corrupt_file Sample.tree_load
              Sample.corrupt_disk "1704189600.25" None eq_refl eq_refl)
    as (d' & Hload & Hbak & Hgone & Hrest).
  exists d'. split; [exact Hload|]. split; [exact Hbak|]. split; [exact Hgone|].
  rewrite Hrest; [reflexivity | discriminate | discriminate].
Defined.

Lemma save_then_load_roundtrip_witness :
  load_students Sample.tree_text Sample.tree_load
    (save_students Sample.tree_text Sample.tree_dump
       (<["S1" := Sample.s1_profile]> {["S2" := Sample.s2_profile]})
       Sample.corrupt_disk) "1704189600.25"
  = (<["S1" := Sample.s1_profile]> {["S2" := Sample.s2_profile]},
     save_students Sample.tree_text Sample.tree_dump
       (<["S1" := Sample.s1_profile]> {["S2" := Sample.s2_profile]})
       Sample.corrupt_disk).
Proof.
  apply (save_then_load_roundtrip Sample.tree_dump Sample.tree_load).
  intros db. reflexivity.
Defined.

(** ** The problem generator *)

Lemma round_half_even_Z x n : x == inject_Z n -> Py.round_half_even x = n.
Proof.
  intros H. unfold Py.round_half_even.
  rewrite (Qfloor_comp x (inject_Z n) H), Qfloor_Z.
  destruct (Qcompare (x - inject_Z n) (1 # 2)) eqn:E; [|reflexivity|].
  - apply Qeq_alt in E. lra.
  - apply Qgt_alt in E. lra.
Qed.

(** Rounding to 2 decimals leaves a whole number of hundredths alone. *)
Lemma round_2_exact x n : x * 100 == inject_Z n -> Py.round x 2 == x.
Proof.
  intros H. unfold Py.round.
  change (inject_Z (10 ^ 2)) with 100.
  rewrite (round_half_even_Z (x * 100) n H). rewrite <- H. field.
Qed.

Lemma round_2_half_product b h :
  Py.round (0.5 * inject_Z b * inject_Z h) 2 == 0.5 * inject_Z b * inject_Z h.
Proof.
  apply (round_2_exact _ (50 * b * h)). rewrite !inject_Z_mult. ring.
Qed.

(** At easy difficulty, for every shape and every state of the random
    source, the area is the closed form of the stored dimensions. *)
Lemma easy_area_is_closed_form shape r :
  exists area form,
    fst (generate_problem shape "easy" r) !! "area" = Some area /\
    closed_form_area shape (fst (generate_problem shape "easy" r)) = Some form /\
    area == form.
Proof.
  unfold generate_problem, closed_form_area, randint, random. cbn [String.eqb Ascii.eqb Bool.eqb].
  destruct (String.eqb shape "Triangle"); [|destruct (String.eqb shape "Square")];
    cbn [fst];
    repeat (rewrite ?lookup_insert_eq, ?lookup_singleton_eq;
            rewrite ?lookup_insert_ne by done);
    eexists _, _; (split; [reflexivity|]); (split; [reflexivity|]).
  - apply round_2_half_product.
  - rewrite inject_Z_mult. apply Qeq_refl.
  - rewrite inject_Z_mult. apply Qeq_refl.
Qed.

(** C1, at a hard Square whose draw is 24.949: the problem stores side
    24.9 and area 622.45, the closed form of the stored side is 620.01,
    the two differ by 2.44, and the answer 620.01 is graded incorrect. *)
Theorem hard_square_area_ignores_stored_side :
  let p := fst (generate_problem "Square" "hard" Sample.draws_hard) in
  fst (uniform 10.0 25.0 Sample.draws_hard) == 24.949 /\
  p !! "side" = Some 24.9 /\
  p !! "area" = Some 622.45 /\
  closed_form_area "Square" p = Some (24.9 * 24.9) /\
  24.9 * 24.9 == 620.01 /\
  Qabs (622.45 - 24.9 * 24.9) == 2.44 /\
  within_tolerance (Finite 620.01) 622.45 = false.
Proof. vm_compute. repeat split. Qed.

(** The same at a medium Triangle whose draws are base 6 and height 5.04:
    height 5.0 is stored, the area 15.12 comes from 5.04. *)
Example medium_triangle_area_ignores_stored_height :
  let p := fst (generate_problem "Triangle" "medium" Sample.draws_medium) in
  p !! "base" = Some 6 /\ p !! "height" = Some 5.0 /\ p !! "area" = Some 15.12 /\
  closed_form_area "Triangle" p = Some (0.5 * 6 * 5.0) /\
  within_tolerance (Finite 15.0) 15.12 = false.
Proof. vm_compute. repeat split. Qed.

(** * Further properties *)

(** ** Rounding *)

Lemma round_half_even_cases y :
  Py.round_half_even y = Qfloor y \/
  (Py.round_half_even y = (Qfloor y + 1)%Z /\ 1 # 2 <= y - inject_Z (Qfloor y)).
Proof.
  unfold Py.round_half_even.
  destruct (Qcompare (y - inject_Z (Qfloor y)) (1 # 2)) eqn:E.
  - apply Qeq_alt in E. destruct (Z.even (Qfloor y)); [left; reflexivity|].
    right. split; [reflexivity | lra].
  - left. reflexivity.
  - apply Qgt_alt in E. right. split; [reflexivity | lra].
Qed.

Lemma round_half_even_lower n y :
  inject_Z n <= y -> (n <= Py.round_half_even y)%Z.
Proof.
  intros H. assert (n <= Qfloor y)%Z as Hn.
  { rewrite <- (Qfloor_Z n). apply Qfloor_resp_le, H. }
  destruct (round_half_even_cases y) as [-> | [-> _]]; lia.
Qed.

Lemma round_half_even_upper m y :
  y <= inject_Z m -> (Py.round_half_even y <= m)%Z.
Proof.
  intros H. pose proof (Qfloor_le y) as Hlo.
  destruct (round_half_even_cases y) as [-> | [-> Hfrac]].
  - rewrite Zle_Qle. lra.
  - assert (inject_Z (Qfloor y) < inject_Z m) as Hlt by lra.
    rewrite <- Zlt_Qlt in Hlt. lia.
Qed.

(** A value between two bounds that are whole at the scale rounds to a
    value between them. *)
Lemma round_between x lo hi d n m :
  0 < inject_Z (10 ^ d) ->
  lo * inject_Z (10 ^ d) == inject_Z n ->
  hi * inject_Z (10 ^ d) == inject_Z m ->
  lo <= x <= hi ->
  lo <= Py.round x d <= hi.
Proof.
  intros Hs Hn Hm [Hlo Hhi]. unfold Py.round. cbv zeta.
  set (s := inject_Z (10 ^ d)) in *.
  assert (inject_Z n <= x * s) as H1 by (rewrite <- Hn; nra).
  assert (x * s <= inject_Z m) as H2 by (rewrite <- Hm; nra).
  apply round_half_even_lower in H1. apply round_half_even_upper in H2.
  rewrite Zle_Qle in H1, H2. split.
  - apply Qle_shift_div_l; [exact Hs | lra].
  - apply Qle_shift_div_r; [exact Hs | lra].
Qed.

(** ** The mastery model, continued *)

(** The quotient of [update] against the prior: not below it on a correct
    answer, not above it on an incorrect one. *)
Lemma posterior_vs_prior p :
  0 <= p <= 1 ->
  update_num (BKT_init p) false / update_den (BKT_init p) false <= p /\
  p <= update_num (BKT_init p) true / update_den (BKT_init p) true.
Proof.
  intros Hp. split.
  - apply Qle_shift_div_r; [apply update_den_init_pos, Hp|].
    unfold update_den, update_num. cbn [p_known p_guess p_slip BKT_init]. nra.
  - apply Qle_shift_div_l; [apply update_den_init_pos, Hp|].
    unfold update_den, update_num. cbn [p_known p_guess p_slip BKT_init]. nra.
Qed.

(** X1.  For a prior in [0, 1], a correct answer never leaves the stored
    mastery below the prior, and never below what an incorrect answer
    would have stored. *)
Theorem correct_answer_never_lowers_mastery :
  forall p : Q,
    0 <= p <= 1 ->
    p <= p_known (fst (update (BKT_init p) true)) /\
    p_known (fst (update (BKT_init p) false))
      <= p_known (fst (update (BKT_init p) true)).
Proof.
  intros p Hp. rewrite !(p_known_after_update p _ Hp). cbv zeta.
  pose proof (posterior_vs_prior p Hp) as [Hf Ht].
  pose proof (posterior_bounds p true Hp) as [_ Ht1].
  split; lra.
Qed.

Lemma correct_answer_never_lowers_mastery_witness :
  0 <= 0.5 <= 1 /\ 0.5 <= p_known (fst (update (BKT_init 0.5) true)).
Proof.
  split; [lra|]. apply (correct_answer_never_lowers_mastery 0.5). lra.
Defined.

(** X2.  For a prior in [0, 1], an incorrect answer lowers the stored
    mastery (weakly) when the prior is at least 12/35, and raises it
    (weakly) when the prior is at most 12/35. *)
Theorem incorrect_answer_threshold :
  forall p : Q,
    0 <= p <= 1 ->
    (12 # 35 <= p -> p_known (fst (update (BKT_init p) false)) <= p) /\
    (p <= 12 # 35 -> p <= p_known (fst (update (BKT_init p) false))).
Proof.
  intros p Hp. rewrite (p_known_after_update p false Hp). cbv zeta.
  pose proof (update_den_init_pos p false Hp) as Hd.
  set (q := update_num (BKT_init p) false / update_den (BKT_init p) false).
  split; intros Hthr.
  - assert (q <= (p - 0.3) * (10 # 7)) as Hq; [|lra].
    apply Qle_shift_div_r; [exact Hd|].
    unfold update_den, update_num. cbn [p_known p_guess p_slip BKT_init]. nra.
  - assert ((p - 0.3) * (10 # 7) <= q) as Hq; [|lra].
    apply Qle_shift_div_l; [exact Hd|].
    unfold update_den, update_num. cbn [p_known p_guess p_slip BKT_init]. nra.
Qed.

Lemma incorrect_answer_threshold_witness :
  0 <= 0.9 <= 1 /\ p_known (fst (update (BKT_init 0.9) false)) <= 0.9.
Proof.
  split; [lra|]. apply (incorrect_answer_threshold 0.9); lra.
Defined.

Lemma full_mastery_step p c :
  p == 1 -> p_known (fst (update (BKT_init p) c)) == 1.
Proof.
  intros H1.
  assert (0 <= p <= 1) as Hp by lra.
  rewrite (p_known_after_update p c Hp). cbv zeta.
  pose proof (update_den_init_pos p c Hp) as Hd.
  pose proof (posterior_bounds p c Hp) as [Hq0 Hq1].
  set (q := update_num (BKT_init p) c / update_den (BKT_init p) c) in *.
  assert (1 <= q) as Hq; [|lra].
  apply Qle_shift_div_l; [exact Hd|].
  unfold update_den, update_num.
  destruct c; cbn [p_known p_guess p_slip BKT_init]; lra.
Qed.

(** X3.  Full mastery is absorbing: from a mastery equal to 1, after
    every call of any sequence of observations, correct or incorrect, the
    stored mastery is 1 again. *)
Theorem full_mastery_is_absorbing :
  forall (p : Q) (obs : list bool),
    p == 1 ->
    Forall (fun q => q == 1) (update_trace (BKT_init p) obs).
Proof.
  intros p obs. revert p.
  induction obs as [|c rest IH]; intros p H1; cbn [update_trace].
  - apply Forall_nil_2.
  - pose proof (full_mastery_step p c H1) as Hstep.
    apply Forall_cons_2; [exact Hstep|].
    rewrite fst_update_init. apply IH, Hstep.
Qed.

Lemma full_mastery_is_absorbing_witness :
  1 == 1 /\
  Forall (fun q => q == 1) (update_trace (BKT_init 1) [false; false; true; false]).
Proof.
  split; [reflexivity|]. apply (full_mastery_is_absorbing 1). reflexivity.
Defined.

(** ** The problem generator, continued *)

Lemma randint_range a b r z r' :
  randint a b r = (z, r') ->
  draws_valid r -> (a <= b)%Z ->
  (inject_Z a <= inject_Z z <= inject_Z b) /\ draws_valid r'.
Proof.
  unfold randint, random. intros [= <- <-] Hv Hab.
  split; [|exact Hv].
  destruct (Hv (pos r)) as [H0 H1].
  set (u := tape r (pos r)) in *. set (n := (b - a + 1)%Z).
  assert (0 < inject_Z n) as Hn.
  { change 0 with (inject_Z 0). rewrite <- Zlt_Qlt. unfold n. lia. }
  pose proof (Qfloor_le (u * inject_Z n)) as Hlo.
  pose proof (Qlt_floor (u * inject_Z n)) as Hhi.
  assert (0 <= Qfloor (u * inject_Z n) < n)%Z as [Hf0 Hf1].
  { split.
    - rewrite <- (Qfloor_Z 0). apply Qfloor_resp_le.
      change (inject_Z 0) with 0. apply Qmult_le_0_compat; lra.
    - rewrite Zlt_Qlt.
      pose proof (Qmult_lt_compat_r u 1 (inject_Z n) Hn H1) as Hun.
      rewrite Qmult_1_l in Hun.
      eapply Qle_lt_trans; [exact Hlo | exact Hun]. }
  rewrite <- !Zle_Qle. subst n u.
  change (a <= a + Qfloor (tape r (pos r) * inject_Z (b - a + 1)) <= b)%Z.
  lia.
Qed.

Lemma uniform_range a b r x r' :
  uniform a b r = (x, r') ->
  draws_valid r -> a <= b ->
  (a <= x <= b) /\ draws_valid r'.
Proof.
  unfold uniform, random. intros [= <- <-] Hv Hab.
  split; [|exact Hv].
  destruct (Hv (pos r)) as [H0 H1]. nra.
Qed.

Lemma round_1_between x lo hi n m :
  lo * 10 == inject_Z n -> hi * 10 == inject_Z m ->
  lo <= x <= hi -> lo <= Py.round x 1 <= hi.
Proof. intros Hn Hm Hx. apply (round_between x lo hi 1 n m eq_refl Hn Hm Hx). Qed.

(** The draws of one call, named and bounded. *)
Ltac draw_all Hv :=
  repeat match goal with
         | |- context [randint ?a ?b ?r] =>
             let z := fresh "z" in let r' := fresh "r" in
             let E := fresh "E" in let B := fresh "B" in let V := fresh "V" in
             destruct (randint a b r) as [z r'] eqn:E;
             destruct (randint_range a b r z r' E ltac:(assumption) ltac:(lia))
               as [B V]
         | |- context [uniform ?a ?b ?r] =>
             let x := fresh "x" in let r' := fresh "r" in
             let E := fresh "E" in let B := fresh "B" in let V := fresh "V" in
             destruct (uniform a b r) as [x r'] eqn:E;
             destruct (uniform_range a b r x r' E ltac:(assumption) ltac:(lra))
               as [B V]
         end.

Ltac bounded_entry :=
  eexists; split;
  [ repeat (rewrite ?lookup_insert_eq, ?lookup_singleton_eq;
            rewrite ?lookup_insert_ne by done); reflexivity
  | first [ change 3 with (inject_Z 3); change 8 with (inject_Z 8);
            assumption
          | cbn in *; lra
          | eapply (round_1_between _ _ _ _ _); [| | cbn in *; lra];
            reflexivity ] ].

(** X5.  With every primitive draw in [0, 1), each stored dimension of a
    generated problem lies within the bounds of the call that sampled it,
    for every shape and difficulty string. *)
Theorem dimensions_within_sampling_bounds :
  forall (shape difficulty : string) (r : Random),
    draws_valid r ->
    Forall (fun '(key, (lo, hi)) =>
              exists v, fst (generate_problem shape difficulty r) !! key = Some v /\
                        lo <= v <= hi)
      (dimension_bounds shape difficulty).
Proof.
  intros shape difficulty r Hv.
  unfold generate_problem, dimension_bounds.
  destruct (String.eqb difficulty "easy");
    [|destruct (String.eqb difficulty "medium")];
    (destruct (String.eqb shape "Triangle");
     [|destruct (String.eqb shape "Square")]);
    draw_all Hv; cbn [fst];
    repeat apply Forall_cons_2; try apply Forall_nil_2;
    bounded_entry.
Qed.

Lemma dimensions_within_sampling_bounds_witness :
  draws_valid Sample.draws_hard /\
  Forall (fun '(key, (lo, hi)) =>
            exists v,
              fst (generate_problem "Square" "hard" Sample.draws_hard) !! key = Some v /\
              lo <= v <= hi)
    [("side", (10, 25))].
Proof.
  assert (draws_valid Sample.draws_hard) as Hv.
  { intros n. cbn. lra. }
  split; [exact Hv|].
  apply (dimensions_within_sampling_bounds "Square" "hard" Sample.draws_hard Hv).
Defined.

(** X6.  For every shape string, difficulty string and state of the random
    source, the problem has exactly the keys of its shape: base, height and
    area for "Triangle", side and area for "Square", and length, width and
    area for any other shape. *)
Theorem problem_has_the_keys_of_its_shape :
  forall (shape difficulty : string) (r : Random),
    dom (fst (generate_problem shape difficulty r)) = problem_keys shape.
Proof.
  intros shape difficulty r.
  unfold generate_problem, problem_keys, uniform, randint, random.
  destruct (String.eqb difficulty "easy");
    [|destruct (String.eqb difficulty "medium")];
    (destruct (String.eqb shape "Triangle");
     [|destruct (String.eqb shape "Square")]);
    cbn [fst]; rewrite ?dom_insert_L, dom_singleton_L; set_solver.
Qed.

Lemma medium_integer_area_is_closed_form shape r :
  String.eqb shape "Triangle" = false ->
  exists area form,
    fst (generate_problem shape "medium" r) !! "area" = Some area /\
    closed_form_area shape (fst (generate_problem shape "medium" r)) = Some form /\
    area == form.
Proof.
  intros Hshape.
  unfold generate_problem, closed_form_area, randint, random.
  cbn [String.eqb Ascii.eqb Bool.eqb]. rewrite Hshape.
  destruct (String.eqb shape "Square"); cbn [fst];
    repeat (rewrite ?lookup_insert_eq, ?lookup_singleton_eq;
            rewrite ?lookup_insert_ne by done);
    eexists _, _; (split; [reflexivity|]); (split; [reflexivity|]);
    rewrite inject_Z_mult; apply Qeq_refl.
Qed.

(** X7.  At easy difficulty for every shape, and at medium difficulty for
    every shape but "Triangle", the area of the problem equals the closed
    form of the dimensions stored beside it. *)
Theorem integer_problems_have_exact_area :
  forall (shape difficulty : string) (r : Random),
    difficulty = "easy" \/ (difficulty = "medium" /\ shape <> "Triangle") ->
    exists area form,
      fst (generate_problem shape difficulty r) !! "area" = Some area /\
      closed_form_area shape (fst (generate_problem shape difficulty r)) = Some form /\
      area == form.
Proof.
  intros shape difficulty r [-> | [-> Hshape]].
  - apply easy_area_is_closed_form.
  - apply medium_integer_area_is_closed_form.
    apply String.eqb_neq, Hshape.
Qed.

Lemma integer_problems_have_exact_area_witness :
  exists area form,
    fst (generate_problem "Rectangle" "medium" Sample.draws_medium) !! "area" = Some area /\
    closed_form_area "Rectangle"
      (fst (generate_problem "Rectangle" "medium" Sample.draws_medium)) = Some form /\
    area == form.
Proof.
  apply (integer_problems_have_exact_area "Rectangle" "medium" Sample.draws_medium).
  right. split; [reflexivity | discriminate].
Defined.

(** ** The session, continued *)

Section SessionFacts.

Context {text : Type}.
Variable json_dump : gmap string (gmap string jval) -> text.
Variable json_load : text -> option (gmap string (gmap string jval)).
Variable float_of_text : string -> option pyfloat.

(** The result of a graded call, with the next problem written out. *)
Lemma check_answer_graded_full self (w : World text) entry now p area user prof n k :
  current_problem self = Some p ->
  p !! "area" = Some area ->
  float_of_text entry = Some user ->
  heap text w !! profile self = Some prof ->
  counter prof "attempts" = Some n ->
  counter prof "correct" = Some k ->
  let c := within_tolerance user area in
  let self1 := graded self c in
  let h := <[profile self := saved_profile self1 c now prof n k]> (heap text w) in
  let g := generate_problem (shape_var self) (difficulty self1) (rng text w) in
  check_answer text json_dump float_of_text self w entry now =
    Ok ({| student_id := student_id self; profile := profile self;
           bkt := bkt self1; difficulty := difficulty self1;
           shape_var := shape_var self; current_problem := Some (fst g) |},
        {| STUDENTS_DB := STUDENTS_DB text w; heap := h;
           disk := save_students text json_dump
                     (snapshot (STUDENTS_DB text w) h) (disk text w);
           rng := snd g |},
        [FeedbackAnswer user area; FeedbackVerdict c;
         MasteryShown (py_int (p_known (bkt self1) * 100));
         ProblemShown (shape_var self) (difficulty self1) (fst g);
         MasteryShown (py_int (p_known (bkt self1) * 100))]).
Proof.
  intros Hp Harea Huser Hprof Hn Hk. cbv zeta.
  rewrite (check_answer_graded json_dump float_of_text self w entry now
             p area user prof n k Hp Harea Huser Hprof Hn Hk).
  cbv zeta. unfold new_problem. cbn [shape_var difficulty rng graded].
  destruct (generate_problem _ _ _) as [q r]. reflexivity.
Qed.

Lemma save_profile_frame self (w w1 : World text) correct now :
  save_profile text json_dump self w correct now = Ok w1 ->
  STUDENTS_DB text w1 = STUDENTS_DB text w /\
  rng text w1 = rng text w /\
  (forall l, l <> profile self -> heap text w1 !! l = heap text w !! l) /\
  (forall path, path <> STUDENTS_FILE -> disk text w1 !! path = disk text w !! path).
Proof.
  unfold save_profile.
  destruct (get_plus_one _ "attempts") as [a|e]; [|discriminate].
  cbn [mbind result_bind].
  destruct correct.
  - destruct (get_plus_one _ "correct") as [c|e]; [|discriminate].
    cbn [mbind result_bind]. intros [= <-]. cbn.
    repeat split; intros x Hx; unfold save_students;
      rewrite lookup_insert_ne by (intros E; apply Hx; symmetry; exact E);
      reflexivity.
  - cbn [mbind result_bind]. intros [= <-]. cbn.
    repeat split; intros x Hx; unfold save_students;
      rewrite lookup_insert_ne by (intros E; apply Hx; symmetry; exact E);
      reflexivity.
Qed.

(** X8.  A call of [_check_answer] that returns leaves the global mapping
    as it was, leaves every profile dict but the session's own as it was,
    and leaves every file but the profile file as it was; the session keeps
    its learner, its profile dict and its shape. *)
Theorem grading_touches_only_own_profile :
  forall self (w : World text) entry now self' w' shown,
    check_answer text json_dump float_of_text self w entry now
      = Ok (self', w', shown) ->
    student_id self' = student_id self /\
    profile self' = profile self /\
    shape_var self' = shape_var self /\
    STUDENTS_DB text w' = STUDENTS_DB text w /\
    (forall l, l <> profile self -> heap text w' !! l = heap text w !! l) /\
    (forall path, path <> STUDENTS_FILE ->
                  disk text w' !! path = disk text w !! path).
Proof.
  intros self w entry now self' w' shown. unfold check_answer.
  destruct (current_problem self) as [p|].
  2:{ intros [= <- <- <-]. repeat split. }
  destruct (bool_decide (size p = 0%nat)).
  { intros [= <- <- <-]. repeat split. }
  destruct (float_of_text entry) as [user|].
  2:{ intros [= <- <- <-]. repeat split. }
  destruct (p !! "area") as [area|]; [|discriminate].
  destruct (save_profile _ _ _ _ _ _) as [w1|e] eqn:Hsave; [|discriminate].
  apply save_profile_frame in Hsave. cbn [profile] in Hsave.
  destruct Hsave as (Hdb & _ & Hheap & Hdisk).
  cbn [mbind result_bind]. unfold new_problem.
  destruct (generate_problem _ _ _) as [q r].
  intros [= <- <- <-]. cbn. repeat split; assumption.
Qed.

(** X9.  When the session's profile dict holds a text under [attempts],
    grading a parsed answer raises [TypeError]; when it holds a text under
    [correct] and integer attempts, an answer judged correct raises
    [TypeError] and nothing is returned. *)
Theorem textual_counter_breaks_grading :
  forall self (w : World text) entry now p area user prof s,
    current_problem self = Some p ->
    p !! "area" = Some area ->
    float_of_text entry = Some user ->
    heap text w !! profile self = Some prof ->
    (prof !! "attempts" = Some (JStr s) ->
     check_answer text json_dump float_of_text self w entry now = Raise TypeError) /\
    (forall n, prof !! "attempts" = Some (JInt n) ->
               prof !! "correct" = Some (JStr s) ->
               within_tolerance user area = true ->
     check_answer text json_dump float_of_text self w entry now = Raise TypeError).
Proof.
  intros self w entry now p area user prof s Hp Harea Huser Hprof.
  assert (bool_decide (size p = 0%nat) = false) as Hsize.
  { apply bool_decide_eq_false_2, (map_size_ne_0_lookup_2 p "area").
    rewrite Harea. eauto. }
  split.
  - intros Hatt. unfold check_answer, save_profile, get_plus_one.
    rewrite Hp, Hsize, Huser, Harea. cbn [profile]. rewrite Hprof.
    cbv zeta. cbn [default]. change (id prof) with prof.
    rewrite !lookup_insert_ne by done. rewrite Hatt. reflexivity.
  - intros n Hatt Hcor Hjudged.
    unfold check_answer, save_profile.
    rewrite Hp, Hsize, Huser, Harea, Hjudged. cbn [profile]. rewrite Hprof.
    cbv zeta. cbn [default]. change (id prof) with prof.
    rewrite (get_plus_one_counter _ "attempts" n).
    2:{ unfold counter. rewrite !lookup_insert_ne by done. rewrite Hatt.
        reflexivity. }
    cbn [mbind result_bind]. unfold get_plus_one.
    rewrite !lookup_insert_ne by done. rewrite Hcor. reflexivity.
Qed.

(** X10.  After a graded answer the session's profile dict holds the
    stored, unrounded [p_known] under [mastery], the session's new
    difficulty under [difficulty] and the clock reading under
    [last_login], and every key other than the five the call writes is as
    it was. *)
Theorem graded_profile_mirrors_session :
  forall self (w : World text) entry now p area user prof n k,
    current_problem self = Some p ->
    p !! "area" = Some area ->
    float_of_text entry = Some user ->
    heap text w !! profile self = Some prof ->
    counter prof "attempts" = Some n ->
    counter prof "correct" = Some k ->
    exists self' w' shown prof',
      check_answer text json_dump float_of_text self w entry now
        = Ok (self', w', shown) /\
      heap text w' !! profile self' = Some prof' /\
      prof' !! "mastery" = Some (JFloat (p_known (bkt self'))) /\
      prof' !! "difficulty" = Some (JStr (difficulty self')) /\
      prof' !! "last_login" = Some (JStr now) /\
      forall key,
        key <> "mastery" -> key <> "difficulty" -> key <> "attempts" ->
        key <> "correct" -> key <> "last_login" ->
        prof' !! key = prof !! key.
Proof.
  intros self w entry now p area user prof n k Hp Harea Huser Hprof Hn Hk.
  pose proof (check_answer_graded_full self w entry now p area user prof n k
                Hp Harea Huser Hprof Hn Hk) as Hg.
  cbv zeta in Hg. eexists _, _, _, _. split; [exact Hg|].
  cbn [heap profile bkt difficulty]. rewrite lookup_insert_eq.
  split; [reflexivity|]. unfold saved_profile.
  destruct (within_tolerance user area);
    (split; [|split; [|split]]);
    try (intros key H1 H2 H3 H4 H5);
    repeat (rewrite ?lookup_insert_eq; rewrite ?lookup_insert_ne by congruence);
    reflexivity.
Qed.

(** X11.  After a graded answer the session holds the problem that
    [generate_problem] makes for its unchanged shape at the difficulty the
    answer moved it to, from the random source as the call found it. *)
Theorem next_problem_uses_new_difficulty :
  forall self (w : World text) entry now p area user prof n k,
    current_problem self = Some p ->
    p !! "area" = Some area ->
    float_of_text entry = Some user ->
    heap text w !! profile self = Some prof ->
    counter prof "attempts" = Some n ->
    counter prof "correct" = Some k ->
    exists self' w' shown,
      check_answer text json_dump float_of_text self w entry now
        = Ok (self', w', shown) /\
      difficulty self' =
        next_difficulty (within_tolerance user area) (difficulty self) /\
      current_problem self' =
        Some (fst (generate_problem (shape_var self) (difficulty self')
                     (rng text w))) /\
      rng text w' =
        snd (generate_problem (shape_var self) (difficulty self') (rng text w)).
Proof.
  intros self w entry now p area user prof n k Hp Harea Huser Hprof Hn Hk.
  pose proof (check_answer_graded_full self w entry now p area user prof n k
                Hp Harea Huser Hprof Hn Hk) as Hg.
  cbv zeta in Hg. eexists _, _, _. split; [exact Hg|].
  cbn. repeat split.
Qed.

(** X12.  With a JSON library whose [load] inverts its [dump], loading the
    profile file right after a graded answer returns the value of the
    whole global mapping as the call left it, the learner's updated dict
    included, and does not touch the disk. *)
Theorem graded_answer_can_be_reloaded :
  (forall db, json_load (json_dump db) = Some db) ->
  forall self (w : World text) entry now stamp p area user prof n k,
    current_problem self = Some p ->
    p !! "area" = Some area ->
    float_of_text entry = Some user ->
    STUDENTS_DB text w !! student_id self = Some (profile self) ->
    heap text w !! profile self = Some prof ->
    counter prof "attempts" = Some n ->
    counter prof "correct" = Some k ->
    exists self' w' shown,
      check_answer text json_dump float_of_text self w entry now
        = Ok (self', w', shown) /\
      load_students text json_load (disk text w') stamp =
        (snapshot (STUDENTS_DB text w') (heap text w'), disk text w') /\
      fst (load_students text json_load (disk text w') stamp) !! student_id self
        = heap text w' !! profile self'.
Proof.
  intros Hcodec self w entry now stamp p area user prof n k
    Hp Harea Huser Halias Hprof Hn Hk.
  pose proof (check_answer_graded_full self w entry now p area user prof n k
                Hp Harea Huser Hprof Hn Hk) as Hg.
  cbv zeta in Hg. eexists _, _, _. split; [exact Hg|].
  cbn [disk STUDENTS_DB heap profile].
  assert (forall m d,
             load_students text json_load (save_students text json_dump m d) stamp
             = (m, save_students text json_dump m d)) as Hload.
  { intros m d. unfold load_students, save_students.
    rewrite lookup_insert_eq, Hcodec. reflexivity. }
  rewrite Hload. split; [reflexivity|]. cbn [fst].
  unfold snapshot. rewrite lookup_omap, Halias. reflexivity.
Qed.





Lemma py_int_percent x :
  0.3 <= x <= 1 -> (30 <= py_int (x * 100) <= 100)%Z.
Proof.
  intros [Hlo Hhi]. unfold py_int.
  assert (Qle_bool 0 (x * 100) = true) as -> by (apply Qle_bool_iff; lra).
  assert (30 <= x * 100) as H30 by lra.
  assert (x * 100 <= 100) as H100 by lra.
  apply Qfloor_resp_le in H30, H100.
  change (Qfloor 30) with 30%Z in H30. change (Qfloor 100) with 100%Z in H100.
  split; assumption.
Qed.

(** X14.  When the session's model was built by the constructor with a
    mastery in [0, 1], a graded answer leaves a stored mastery between 0.3
    and 1, and every percentage the call puts on the mastery bar is
    between 30 and 100. *)
Theorem graded_mastery_bar_range :
  forall self (w : World text) entry now p area user prof n k prior,
    bkt self = BKT_init prior ->
    0 <= prior <= 1 ->
    current_problem self = Some p ->
    p !! "area" = Some area ->
    float_of_text entry = Some user ->
    heap text w !! profile self = Some prof ->
    counter prof "attempts" = Some n ->
    counter prof "correct" = Some k ->
    exists self' w' shown,
      check_answer text json_dump float_of_text self w entry now
        = Ok (self', w', shown) /\
      0.3 <= p_known (bkt self') <= 1 /\
      percentages shown <> [] /\
      Forall (fun pct => (30 <= pct <= 100)%Z) (percentages shown).
Proof.
  intros self w entry now p area user prof n k prior Hb Hprior
    Hp Harea Huser Hprof Hn Hk.
  pose proof (check_answer_graded_full self w entry now p area user prof n k
                Hp Harea Huser Hprof Hn Hk) as Hg.
  cbv zeta in Hg. eexists _, _, _. split; [exact Hg|].
  cbn [bkt graded percentages]. rewrite Hb.
  pose proof (p_known_after_update_bounds prior (within_tolerance user area) Hprior)
    as Hbounds.
  split; [exact Hbounds|]. split; [discriminate|].
  repeat apply Forall_cons_2; try apply Forall_nil_2;
    apply py_int_percent, Hbounds.
Qed.

(** X15.  For every session and world, [_show_example] returns with the
    title "Worked Example"; the mapping, the profile dicts and the files
    are as before and the random source is advanced by one generation; the
    numbers of the message are, in order, the entries of the problem
    [generate_problem] makes for the session's shape at difficulty "easy"
    from the random source as the call found it; and the area shown last
    equals the closed form of the dimensions shown before it. *)
Theorem worked_example_is_consistent :
  forall self (w : World text),
    exists w' msg,
      show_example text self w = Ok (w', ("Worked Example", msg)) /\
      STUDENTS_DB text w' = STUDENTS_DB text w /\
      heap text w' = heap text w /\
      disk text w' = disk text w /\
      rng text w' =
        snd (generate_problem (shape_var self) "easy" (rng text w)) /\
      Some <$> numbers msg =
        (fun key => fst (generate_problem (shape_var self) "easy" (rng text w))
                      !! key) <$> example_keys (shape_var self) /\
      match numbers msg with
      | [b; h; a] =>
          shape_var self <> "Square" /\
          a == (if String.eqb (shape_var self) "Triangle"
                then 0.5 * b * h else b * h)
      | [s; a] => shape_var self = "Square" /\ a == s * s
      | _ => False
      end.
Proof.
  intros self w.
  unfold show_example, example_keys, generate_problem, item, randint, random.
  cbn [String.eqb Ascii.eqb Bool.eqb].
  destruct (String.eqb (shape_var self) "Triangle") eqn:Ht;
    [|destruct (String.eqb (shape_var self) "Square") eqn:Hs];
    cbn [fst snd fmap list_fmap];
    repeat (rewrite ?lookup_insert_eq, ?lookup_singleton_eq;
            rewrite ?lookup_insert_ne by done);
    cbn [mbind result_bind];
    eexists _, _; (split; [reflexivity|]);
    cbn [STUDENTS_DB heap disk rng numbers fmap list_fmap];
    repeat (split; [reflexivity|]).
  - split.
    + apply String.eqb_eq in Ht. rewrite Ht. discriminate.
    + apply round_2_half_product.
  - split.
    + apply String.eqb_eq, Hs.
    + rewrite inject_Z_mult. apply Qeq_refl.
  - split.
    + apply String.eqb_neq, Hs.
    + rewrite inject_Z_mult. apply Qeq_refl.
Qed.

(** ** The profile store, continued *)

(** X16.  Once a corrupt profile file has been quarantined, loading again
    returns the empty mapping without touching the disk, and a later save
    leaves the quarantined contents where they are. *)
Theorem quarantined_file_survives_later_saves :
  forall (d : gmap string text) stamp contents,
    d !! STUDENTS_FILE = Some contents ->
    json_load contents = None ->
    let d' := snd (load_students text json_load d stamp) in
    (forall stamp', load_students text json_load d' stamp' = (∅, d')) /\
    (forall m,
        save_students text json_dump m d' !! (STUDENTS_FILE +:+ ".bak_" +:+ stamp)
        = Some contents).
Proof.
  intros d stamp contents Hfile Hbad. cbv zeta.
  assert (snd (load_students text json_load d stamp) =
            <[STUDENTS_FILE +:+ ".bak_" +:+ stamp := contents]>
              (delete STUDENTS_FILE d)) as ->.
  { unfold load_students, rename. rewrite Hfile, Hbad. reflexivity. }
  assert ((<[STUDENTS_FILE +:+ ".bak_" +:+ stamp := contents]>
             (delete STUDENTS_FILE d)) !! STUDENTS_FILE = None) as Hgone.
  { rewrite lookup_insert_ne by apply backup_name_fresh. apply lookup_delete_eq. }
  split.
  - intros stamp'. unfold load_students. rewrite Hgone. reflexivity.
  - intros m. unfold save_students.
    rewrite lookup_insert_ne.
    + apply lookup_insert_eq.
    + intros E. apply (backup_name_fresh stamp). symmetry. exact E.
Qed.

(** X17.  A save replaces the whole file: with a JSON library whose [load]
    inverts its [dump], after two saves a load returns the mapping saved
    last, the disk is the one a single save of it yields, and no file
    other than the profile file differs from before. *)
Theorem last_save_wins :
  (forall db, json_load (json_dump db) = Some db) ->
  forall (d : gmap string text) m1 m2 stamp,
    save_students text json_dump m2 (save_students text json_dump m1 d)
      = save_students text json_dump m2 d /\
    fst (load_students text json_load
           (save_students text json_dump m2 (save_students text json_dump m1 d))
           stamp) = m2 /\
    forall path,
      path <> STUDENTS_FILE ->
      save_students text json_dump m2 (save_students text json_dump m1 d) !! path
        = d !! path.
Proof.
  intros Hcodec d m1 m2 stamp. unfold save_students.
  rewrite insert_insert_eq. split; [reflexivity|]. split.
  - unfold load_students. rewrite lookup_insert_eq, Hcodec. reflexivity.
  - intros path Hpath. apply lookup_insert_ne. congruence.
Qed.

(** ** The constructor *)

(** The session the constructor builds on a profile dict whose mastery
    reads as the finite number [x] and whose difficulty reads as the text
    [level]. *)
Lemma init_on_profile (w : World text) sid now l prof x level :
  STUDENTS_DB text w !! sid = Some l ->
  heap text w !! l = Some prof ->
  float_of_jval float_of_text (default (JFloat 0.1) (prof !! "mastery"))
    = Built (Finite x) ->
  default (JStr "easy") (prof !! "difficulty") = JStr level ->
  let g := generate_problem "Triangle" level (rng text w) in
  GeoTutorApp_init text float_of_text w sid now =
    Built ({| student_id := sid; profile := l; bkt := BKT_init x;
              difficulty := level; shape_var := "Triangle";
              current_problem := Some (fst g) |},
           {| STUDENTS_DB := STUDENTS_DB text w; heap := heap text w;
              disk := disk text w; rng := snd g |},
           [MasteryShown (py_int (x * 100));
            ProblemShown "Triangle" level (fst g);
            MasteryShown (py_int (x * 100))]).
Proof.
  intros Hdb Hheap Hm Hd. cbv zeta. unfold GeoTutorApp_init.
  rewrite Hdb, Hheap. cbn [default]. change (id prof) with prof.
  rewrite Hm, Hd. unfold new_problem.
  cbn [shape_var difficulty rng bkt p_known BKT_init student_id profile
       STUDENTS_DB heap disk].
  destruct (generate_problem _ _ _) as [q r]. reflexivity.
Qed.

(** The session the constructor builds for an id it has not seen. *)
Lemma init_new_learner (w : World text) sid now :
  STUDENTS_DB text w !! sid = None ->
  let l := fresh (dom (heap text w)) in
  let g := generate_problem "Triangle" "easy" (rng text w) in
  GeoTutorApp_init text float_of_text w sid now =
    Built ({| student_id := sid; profile := l; bkt := BKT_init 0.1;
              difficulty := "easy"; shape_var := "Triangle";
              current_problem := Some (fst g) |},
           {| STUDENTS_DB := <[sid := l]> (STUDENTS_DB text w);
              heap := <[l := default_profile now]> (heap text w);
              disk := disk text w; rng := snd g |},
           [MasteryShown (py_int (0.1 * 100));
            ProblemShown "Triangle" "easy" (fst g);
            MasteryShown (py_int (0.1 * 100))]).
Proof.
  intros Hnew. cbv zeta. unfold GeoTutorApp_init. rewrite Hnew.
  cbn [heap]. rewrite lookup_insert_eq. cbn [default].
  change (id (default_profile now)) with (default_profile now).
  assert (default_profile now !! "mastery" = Some (JFloat 0.1)) as ->
    by apply lookup_insert_eq.
  assert (default_profile now !! "difficulty" = Some (JStr "easy")) as ->.
  { unfold default_profile. rewrite lookup_insert_ne by done.
    apply lookup_insert_eq. }
  cbn [default]. unfold id. cbn [float_of_jval]. unfold new_problem.
  cbn [shape_var difficulty rng bkt p_known BKT_init student_id profile
       STUDENTS_DB heap disk].
  destruct (generate_problem _ _ _) as [q r]. reflexivity.
Qed.

(** X18.  For an id the global mapping does not hold, the constructor
    returns a session at mastery 0.1 and difficulty easy holding an easy
    Triangle problem; its profile dict is a new one with the default
    entries, registered under the id; every dict that existed is as it
    was, and no file is written. *)
Theorem new_learner_gets_default_session :
  forall (w : World text) sid now,
    STUDENTS_DB text w !! sid = None ->
    exists self w' shown,
      GeoTutorApp_init text float_of_text w sid now = Built (self, w', shown) /\
      student_id self = sid /\
      bkt self = BKT_init 0.1 /\
      difficulty self = "easy" /\
      shape_var self = "Triangle" /\
      current_problem self =
        Some (fst (generate_problem "Triangle" "easy" (rng text w))) /\
      heap text w !! profile self = None /\
      STUDENTS_DB text w' = <[sid := profile self]> (STUDENTS_DB text w) /\
      heap text w' = <[profile self := default_profile now]> (heap text w) /\
      disk text w' = disk text w.
Proof.
  intros w sid now Hnew.
  pose proof (init_new_learner w sid now Hnew) as Hinit. cbv zeta in Hinit.
  eexists _, _, _. split; [exact Hinit|].
  cbn [student_id bkt difficulty shape_var current_problem profile
       STUDENTS_DB heap disk].
  repeat split.
  apply not_elem_of_dom, is_fresh.
Qed.

(** X19.  For an id whose profile dict holds a float mastery of magnitude
    at most 10^300 (or none, read as 0.1) and a text difficulty (or none,
    read as easy), the constructor returns a session on that very dict, at
    that mastery unrounded and that difficulty, and leaves the mapping,
    the dicts and the files as they were. *)
Theorem known_learner_resumes_stored_state :
  forall (w : World text) sid now l prof x level,
    STUDENTS_DB text w !! sid = Some l ->
    heap text w !! l = Some prof ->
    prof !! "mastery" = Some (JFloat x) \/ (prof !! "mastery" = None /\ x = 0.1) ->
    Qabs x <= inject_Z (10 ^ 300) ->
    prof !! "difficulty" = Some (JStr level)
      \/ (prof !! "difficulty" = None /\ level = "easy") ->
    exists self w' shown,
      GeoTutorApp_init text float_of_text w sid now = Built (self, w', shown) /\
      profile self = l /\
      bkt self = BKT_init x /\
      difficulty self = level /\
      current_problem self =
        Some (fst (generate_problem "Triangle" level (rng text w))) /\
      STUDENTS_DB text w' = STUDENTS_DB text w /\
      heap text w' = heap text w /\
      disk text w' = disk text w.
Proof.
  intros w sid now l prof x level Hdb Hheap Hm _ Hd.
  pose proof (init_on_profile w sid now l prof x level Hdb Hheap) as Hinit.
  cbv zeta in Hinit. rewrite Hinit.
  - eexists _, _, _. split; [reflexivity|].
    cbn [student_id bkt difficulty shape_var current_problem profile
         STUDENTS_DB heap disk].
    repeat split.
  - destruct Hm as [-> | [-> ->]]; reflexivity.
  - destruct Hd as [-> | [-> ->]]; reflexivity.
Qed.

Lemma saved_profile_mastery self correct now prof n k :
  saved_profile self correct now prof n k !! "mastery"
    = Some (JFloat (p_known (bkt self))).
Proof.
  unfold saved_profile. destruct correct;
    rewrite !lookup_insert_ne by done; apply lookup_insert_eq.
Qed.

Lemma saved_profile_difficulty self correct now prof n k :
  saved_profile self correct now prof n k !! "difficulty"
    = Some (JStr (difficulty self)).
Proof.
  unfold saved_profile. destruct correct;
    rewrite !lookup_insert_ne by done; apply lookup_insert_eq.
Qed.

(** X20.  After a graded answer of a session whose model the constructor
    built, a constructor call for the same id on the world the answer left
    returns a session on the same profile dict with the same model (the
    stored mastery, unrounded) and the same difficulty. *)
Theorem next_session_resumes_where_grading_stopped :
  forall self (w : World text) entry now now' p area user prof n k prior,
    bkt self = BKT_init prior ->
    STUDENTS_DB text w !! student_id self = Some (profile self) ->
    current_problem self = Some p ->
    p !! "area" = Some area ->
    float_of_text entry = Some user ->
    heap text w !! profile self = Some prof ->
    counter prof "attempts" = Some n ->
    counter prof "correct" = Some k ->
    exists self' w' shown self2 w2 shown2,
      check_answer text json_dump float_of_text self w entry now
        = Ok (self', w', shown) /\
      GeoTutorApp_init text float_of_text w' (student_id self) now'
        = Built (self2, w2, shown2) /\
      profile self2 = profile self' /\
      bkt self2 = bkt self' /\
      difficulty self2 = difficulty self'.
Proof.
  intros self w entry now now' p area user prof n k prior Hb Halias
    Hp Harea Huser Hprof Hn Hk.
  pose proof (check_answer_graded_full self w entry now p area user prof n k
                Hp Harea Huser Hprof Hn Hk) as Hg.
  cbv zeta in Hg.
  set (c := within_tolerance user area) in *.
  match type of Hg with _ = Ok (_, ?x1, _) =>
    pose proof (init_on_profile x1 (student_id self) now' (profile self)
                  (saved_profile (graded self c) c now prof n k)
                  (p_known (bkt (graded self c))) (difficulty (graded self c)))
      as Hinit
  end.
  cbv zeta in Hinit. cbn [STUDENTS_DB heap] in Hinit.
  rewrite saved_profile_mastery, saved_profile_difficulty in Hinit.
  specialize (Hinit Halias (lookup_insert_eq _ _ _) eq_refl eq_refl).
  eexists _, _, _, _, _, _. split; [exact Hg|]. split; [exact Hinit|].
  cbn [profile bkt difficulty graded]. rewrite Hb.
  repeat split. symmetry. apply fst_update_init.
Qed.

(** X21.  For an id the global mapping does not hold, the session the
    constructor returns can be graded at once: a parsed answer returns one
    verdict, the new profile dict counts one attempt and as many correct
    answers as the verdict, and the file holds the dump of the whole
    mapping with that dict under the id. *)
Theorem new_learner_first_answer_is_recorded :
  forall (w : World text) sid now entry now' user,
    STUDENTS_DB text w !! sid = None ->
    float_of_text entry = Some user ->
    exists self w1 shown1 self2 w2 shown2 prof' verdict,
      GeoTutorApp_init text float_of_text w sid now = Built (self, w1, shown1) /\
      check_answer text json_dump float_of_text self w1 entry now'
        = Ok (self2, w2, shown2) /\
      verdicts shown2 = [verdict] /\
      heap text w2 !! profile self = Some prof' /\
      counter prof' "attempts" = Some 1%Z /\
      counter prof' "correct" = Some (if verdict then 1%Z else 0%Z) /\
      snapshot (STUDENTS_DB text w2) (heap text w2) !! sid = Some prof' /\
      disk text w2 !! STUDENTS_FILE
        = Some (json_dump (snapshot (STUDENTS_DB text w2) (heap text w2))).
Proof.
  intros w sid now entry now' user Hnew Huser.
  pose proof (init_new_learner w sid now Hnew) as Hinit. cbv zeta in Hinit.
  destruct (generate_problem_has_area "Triangle" "easy" (rng text w))
    as [area Harea].
  match type of Hinit with _ = Built (?s, ?x, _) =>
    pose proof (check_answer_graded_full s x entry now'
                  (fst (generate_problem "Triangle" "easy" (rng text w)))
                  area user (default_profile now) 0%Z 0%Z
                  eq_refl Harea Huser (lookup_insert_eq _ _ _)) as Hg
  end.
  cbv zeta in Hg. specialize (Hg eq_refl eq_refl).
  set (c := within_tolerance user area) in *.
  eexists _, _, _, _, _, _, _, c.
  split; [exact Hinit|]. split; [exact Hg|].
  cbn [verdicts heap profile STUDENTS_DB disk].
  split; [reflexivity|].
  split; [apply lookup_insert_eq|].
  split; [apply saved_profile_attempts|].
  split; [apply (saved_profile_correct _ c _ _ 0%Z 0%Z); reflexivity|].
  split.
  - unfold snapshot. rewrite lookup_omap, lookup_insert_eq. cbn.
    apply lookup_insert_eq.
  - unfold save_students. apply lookup_insert_eq.
Qed.

(** X22.  On a profile dict whose mastery is a text, the constructor
    raises [ValueError] when the text does not parse or parses as a NaN,
    and [OverflowError] when it parses as an infinity; on one whose
    mastery reads as a finite number of magnitude at most 10^300 and whose
    difficulty is a number, it raises [AttributeError]. *)
Theorem unreadable_profile_stops_constructor :
  forall (w : World text) sid now l prof,
    STUDENTS_DB text w !! sid = Some l ->
    heap text w !! l = Some prof ->
    (forall s,
        prof !! "mastery" = Some (JStr s) ->
        float_of_text s = None \/ float_of_text s = Some NaN ->
        GeoTutorApp_init text float_of_text w sid now = InitRaise ValueError) /\
    (forall s,
        prof !! "mastery" = Some (JStr s) ->
        float_of_text s = Some PosInf \/ float_of_text s = Some NegInf ->
        GeoTutorApp_init text float_of_text w sid now = InitRaise OverflowError) /\
    (forall x v,
        float_of_jval float_of_text (default (JFloat 0.1) (prof !! "mastery"))
          = Built (Finite x) ->
        Qabs x <= inject_Z (10 ^ 300) ->
        prof !! "difficulty" = Some v ->
        (forall level, v <> JStr level) ->
        GeoTutorApp_init text float_of_text w sid now = InitRaise AttributeError).
Proof.
  intros w sid now l prof Hdb Hheap.
  split; [|split].
  - intros s Hm Hparse. unfold GeoTutorApp_init.
    rewrite Hdb, Hheap. cbn [default]. change (id prof) with prof.
    rewrite Hm. cbn [default]. unfold id. cbn [float_of_jval].
    destruct Hparse as [-> | ->]; reflexivity.
  - intros s Hm Hparse. unfold GeoTutorApp_init.
    rewrite Hdb, Hheap. cbn [default]. change (id prof) with prof.
    rewrite Hm. cbn [default]. unfold id. cbn [float_of_jval].
    destruct Hparse as [-> | ->]; reflexivity.
  - intros x v Hm _ Hd Hv. unfold GeoTutorApp_init.
    rewrite Hdb, Hheap. cbn [default]. change (id prof) with prof.
    rewrite Hm, Hd. cbn [default]. unfold id.
    destruct v as [i|f|level]; [reflexivity | reflexivity |].
    destruct (Hv level eq_refl).
Qed.

End SessionFacts.

(** ** The further properties at concrete sessions *)

Lemma sample_answer_graded entry user :
  Sample.decimal_literal entry = Some user ->
  check_answer Sample.tree_text Sample.tree_dump Sample.decimal_literal
    Sample.app Sample.world entry "2024-01-02T10:00:00" =
  Ok (let c := within_tolerance user 12.0 in
      let self1 := graded Sample.app c in
      let h := <[1%positive := saved_profile self1 c "2024-01-02T10:00:00"
                                 Sample.s1_profile 0 0]>
                 (heap _ Sample.world) in
      let g := generate_problem "Triangle" (difficulty self1)
                 (rng _ Sample.world) in
      ({| student_id := "S1"; profile := 1%positive;
          bkt := bkt self1; difficulty := difficulty self1;
          shape_var := "Triangle"; current_problem := Some (fst g) |},
       {| STUDENTS_DB := STUDENTS_DB _ Sample.world; heap := h;
          disk := save_students _ Sample.tree_dump
                    (snapshot (STUDENTS_DB _ Sample.world) h)
                    (disk _ Sample.world);
          rng := snd g |},
       [FeedbackAnswer user 12.0; FeedbackVerdict c;
        MasteryShown (py_int (p_known (bkt self1) * 100));
        ProblemShown "Triangle" (difficulty self1) (fst g);
        MasteryShown (py_int (p_known (bkt self1) * 100))])).
Proof.
  intros Huser.
  exact (check_answer_graded_full Sample.tree_dump Sample.decimal_literal
           Sample.app Sample.world entry "2024-01-02T10:00:00"
           Sample.triangle_4_6 12.0 user Sample.s1_profile 0%Z 0%Z
           eq_refl eq_refl Huser eq_refl eq_refl eq_refl).
Defined.

Lemma grading_touches_only_own_profile_witness :
  exists self' w' shown,
    check_answer Sample.tree_text Sample.tree_dump Sample.decimal_literal
      Sample.app Sample.world "12.05" "2024-01-02T10:00:00" = Ok (self', w', shown) /\
    heap _ w' !! 2%positive = Some Sample.s2_profile /\
    STUDENTS_DB _ w' = STUDENTS_DB _ Sample.world.
Proof.
  pose proof (sample_answer_graded "12.05" (Finite 12.05) eq_refl) as Hg.
  cbv zeta in Hg.
  destruct (grading_touches_only_own_profile _ _ _ _ _ _ _ _ _ Hg)
    as (_ & _ & _ & Hdb & Hheap & _).
  eexists _, _, _. split; [exact Hg|]. split; [|exact Hdb].
  rewrite (Hheap 2%positive) by discriminate. reflexivity.
Defined.

Lemma textual_counter_breaks_grading_witness :
  check_answer Sample.tree_text Sample.tree_dump Sample.decimal_literal
    Fresh.text_app Fresh.text_world "16" "2024-01-02T10:00:00" = Raise TypeError.
Proof.
  apply (proj1 (textual_counter_breaks_grading
                  Sample.tree_dump Sample.decimal_literal
                  Fresh.text_app Fresh.text_world "16" "2024-01-02T10:00:00"
                  (<["side" := 4]> {["area" := 16]}) 16 (Finite 16)
                  Fresh.text_profile "three"
                  eq_refl eq_refl eq_refl eq_refl)).
  reflexivity.
Defined.

Lemma graded_profile_mirrors_session_witness :
  exists self' w' shown prof',
    check_answer Sample.tree_text Sample.tree_dump Sample.decimal_literal
      Sample.app Sample.world "12.05" "2024-01-02T10:00:00" = Ok (self', w', shown) /\
    heap _ w' !! profile self' = Some prof' /\
    prof' !! "mastery" = Some (JFloat (p_known (bkt self'))) /\
    prof' !! "difficulty" = Some (JStr (difficulty self')).
Proof.
  destruct (graded_profile_mirrors_session
              Sample.tree_dump Sample.decimal_literal
              Sample.app Sample.world "12.05" "2024-01-02T10:00:00"
              Sample.triangle_4_6 12.0 (Finite 12.05) Sample.s1_profile 0%Z 0%Z
              eq_refl eq_refl eq_refl eq_refl eq_refl eq_refl)
    as (self' & w' & shown & prof' & Hrun & Hh & Hm & Hd & _).
  exists self', w', shown, prof'. auto.
Defined.

Lemma next_problem_uses_new_difficulty_witness :
  exists self' w' shown,
    check_answer Sample.tree_text Sample.tree_dump Sample.decimal_literal
      Sample.app Sample.world "12.05" "2024-01-02T10:00:00" = Ok (self', w', shown) /\
    current_problem self' =
      Some (fst (generate_problem "Triangle" "medium" (rng _ Sample.world))).
Proof.
  destruct (next_problem_uses_new_difficulty
              Sample.tree_dump Sample.decimal_literal
              Sample.app Sample.world "12.05" "2024-01-02T10:00:00"
              Sample.triangle_4_6 12.0 (Finite 12.05) Sample.s1_profile 0%Z 0%Z
              eq_refl eq_refl eq_refl eq_refl eq_refl eq_refl)
    as (self' & w' & shown & Hrun & Hd & Hp & _).
  exists self', w', shown. split; [exact Hrun|].
  rewrite Hp, Hd. reflexivity.
Defined.

Lemma graded_answer_can_be_reloaded_witness :
  exists self' w' shown,
    check_answer Sample.tree_text Sample.tree_dump Sample.decimal_literal
      Sample.app Sample.world "12.05" "2024-01-02T10:00:00" = Ok (self', w', shown) /\
    load_students _ Sample.tree_load (disk _ w') "1704189600.25" =
      (snapshot (STUDENTS_DB _ w') (heap _ w'), disk _ w').
Proof.
  destruct (graded_answer_can_be_reloaded
              Sample.tree_dump Sample.tree_load Sample.decimal_literal
              (fun db => eq_refl)
              Sample.app Sample.world "12.05" "2024-01-02T10:00:00" "1704189600.25"
              Sample.triangle_4_6 12.0 (Finite 12.05) Sample.s1_profile 0%Z 0%Z
              eq_refl eq_refl eq_refl eq_refl eq_refl eq_refl eq_refl)
    as (self' & w' & shown & Hrun & Hload & _).
  exists self', w', shown. auto.
Defined.


Lemma graded_mastery_bar_range_witness :
  exists self' w' shown,
    check_answer Sample.tree_text Sample.tree_dump Sample.decimal_literal
      Sample.app Sample.world "12.05" "2024-01-02T10:00:00" = Ok (self', w', shown) /\
    0.3 <= p_known (bkt self') <= 1.
Proof.
  destruct (graded_mastery_bar_range
              Sample.tree_dump Sample.decimal_literal
              Sample.app Sample.world "12.05" "2024-01-02T10:00:00"
              Sample.triangle_4_6 12.0 (Finite 12.05) Sample.s1_profile 0%Z 0%Z 0.1
              eq_refl ltac:(lra) eq_refl eq_refl eq_refl eq_refl eq_refl eq_refl)
    as (self' & w' & shown & Hrun & Hb & _).
  exists self', w', shown. auto.
Defined.

Lemma quarantined_file_survives_later_saves_witness :
  save_students _ Sample.tree_dump ∅
    (snd (load_students _ Sample.tree_load Sample.corrupt_disk "1704189600.25"))
    !! "students_data.json.bak_1704189600.25" = Some None.
Proof.
  apply (proj2 (quarantined_file_survives_later_saves
                  Sample.tree_dump Sample.tree_load
                  Sample.corrupt_disk "1704189600.25" None eq_refl eq_refl)).
Defined.

Lemma last_save_wins_witness :
  fst (load_students _ Sample.tree_load
         (save_students _ Sample.tree_dump {["S2" := Sample.s2_profile]}
            (save_students _ Sample.tree_dump {["S1" := Sample.s1_profile]}
               Sample.corrupt_disk))
         "1704189600.25") = {["S2" := Sample.s2_profile]}.
Proof.
  apply (last_save_wins Sample.tree_dump Sample.tree_load (fun db => eq_refl)).
Defined.

Lemma new_learner_gets_default_session_witness :
  exists self w' shown,
    GeoTutorApp_init Sample.tree_text Sample.decimal_literal
      Fresh.world "S9" "2024-01-02T10:00:00" = Built (self, w', shown) /\
    bkt self = BKT_init 0.1 /\ difficulty self = "easy" /\
    disk _ w' = disk _ Fresh.world.
Proof.
  destruct (new_learner_gets_default_session Sample.decimal_literal
              Fresh.world "S9" "2024-01-02T10:00:00" eq_refl)
    as (self & w' & shown & Hrun & _ & Hb & Hd & _ & _ & _ & _ & _ & Hdisk).
  exists self, w', shown. auto.
Defined.

Lemma known_learner_resumes_stored_state_witness :
  exists self w' shown,
    GeoTutorApp_init Sample.tree_text Sample.decimal_literal
      Sample.world "S2" "2024-01-02T10:00:00" = Built (self, w', shown) /\
    bkt self = BKT_init 0.8 /\ difficulty self = "hard".
Proof.
  destruct (known_learner_resumes_stored_state Sample.decimal_literal
              Sample.world "S2" "2024-01-02T10:00:00" 2%positive
              Sample.s2_profile 0.8 "hard" eq_refl eq_refl
              (or_introl eq_refl) ltac:(vm_compute; discriminate)
              (or_introl eq_refl))
    as (self & w' & shown & Hrun & _ & Hb & Hd & _).
  exists self, w', shown. auto.
Defined.

Lemma next_session_resumes_where_grading_stopped_witness :
  exists self' w' shown self2 w2 shown2,
    check_answer Sample.tree_text Sample.tree_dump Sample.decimal_literal
      Sample.app Sample.world "12.05" "2024-01-02T10:00:00" = Ok (self', w', shown) /\
    GeoTutorApp_init Sample.tree_text Sample.decimal_literal
      w' "S1" "2024-01-03T08:00:00" = Built (self2, w2, shown2) /\
    bkt self2 = bkt self' /\ difficulty self2 = difficulty self'.
Proof.
  destruct (next_session_resumes_where_grading_stopped
              Sample.tree_dump Sample.decimal_literal
              Sample.app Sample.world "12.05" "2024-01-02T10:00:00"
              "2024-01-03T08:00:00"
              Sample.triangle_4_6 12.0 (Finite 12.05) Sample.s1_profile 0%Z 0%Z 0.1
              eq_refl eq_refl eq_refl eq_refl eq_refl eq_refl eq_refl eq_refl)
    as (self' & w' & shown & self2 & w2 & shown2 & Hrun & Hinit & _ & Hb & Hd).
  exists self', w', shown, self2, w2, shown2. auto.
Defined.

Lemma new_learner_first_answer_is_recorded_witness :
  exists self w1 shown1 self2 w2 shown2 prof',
    GeoTutorApp_init Sample.tree_text Sample.decimal_literal
      Fresh.world "S9" "2024-01-02T10:00:00" = Built (self, w1, shown1) /\
    check_answer Sample.tree_text Sample.tree_dump Sample.decimal_literal
      self w1 "18" "2024-01-02T10:05:00" = Ok (self2, w2, shown2) /\
    heap _ w2 !! profile self = Some prof' /\
    counter prof' "attempts" = Some 1%Z.
Proof.
  destruct (new_learner_first_answer_is_recorded
              Sample.tree_dump Sample.decimal_literal
              Fresh.world "S9" "2024-01-02T10:00:00" "18" "2024-01-02T10:05:00"
              (Finite 18) eq_refl eq_refl)
    as (self & w1 & shown1 & self2 & w2 & shown2 & prof' & verdict
        & Hinit & Hrun & _ & Hh & Hatt & _).
  exists self, w1, shown1, self2, w2, shown2, prof'. auto.
Defined.

Lemma unreadable_profile_stops_constructor_witness :
  GeoTutorApp_init Sample.tree_text Sample.decimal_literal
    Fresh.unread_world "S4" "2024-01-02T10:00:00" = InitRaise ValueError.
Proof.
  apply (proj1 (unreadable_profile_stops_constructor Sample.decimal_literal
                  Fresh.unread_world "S4" "2024-01-02T10:00:00" 1%positive
                  {["mastery" := JStr "high"]} eq_refl eq_refl) "high").
  - reflexivity.
  - left. reflexivity.
Defined.

(** ** The profile file as bytes *)

Section RawStoreFacts.

Context {text : Type}.
Variable decode : list Byte.byte -> option text.
Variable json_loads : text -> option (gmap string (gmap string jval)).

(** On a disk whose profile file decodes (or is absent), the call on bytes
    returns what [load_students] returns with decoding made part of the
    parser. *)
Lemma load_students_raw_on_text (d : gmap string (list Byte.byte)) stamp :
  (forall raw, d !! STUDENTS_FILE = Some raw -> is_Some (decode raw)) ->
  load_students_raw text decode json_loads d stamp =
    Loaded
      (fst (load_students (list Byte.byte)
              (fun raw => decode raw ≫= json_loads) d stamp))
      (snd (load_students (list Byte.byte)
              (fun raw => decode raw ≫= json_loads) d stamp)).
Proof.
  intros Hdec. unfold load_students_raw, load_students.
  destruct (d !! STUDENTS_FILE) as [raw|]; [|reflexivity].
  destruct (Hdec raw eq_refl) as [s Hs]. rewrite Hs. cbn [mbind option_bind].
  destruct (json_loads s); reflexivity.
Qed.

(** Bytes that do not decode leave the call as [UnicodeDecodeError], with
    the disk as it was. *)
Lemma load_students_raw_undecodable (d : gmap string (list Byte.byte)) stamp raw :
  d !! STUDENTS_FILE = Some raw ->
  decode raw = None ->
  load_students_raw text decode json_loads d stamp = LoadRaise UnicodeDecodeError d.
Proof.
  intros Hfile Hbad. unfold load_students_raw. rewrite Hfile, Hbad. reflexivity.
Qed.

End RawStoreFacts.

(** C7, at a profile file holding the bytes FF FE: they are not valid
    UTF-8, so whatever the JSON parser and the clock, [load_students]
    raises [UnicodeDecodeError] instead of returning the empty mapping, and
    the file is still under its own name, not under a backup name. *)
Theorem load_raises_on_undecodable_file :
  forall (json_loads : list N -> option (gmap string (gmap string jval)))
         (stamp : string),
    undecodable_disk !! STUDENTS_FILE = Some [Byte.xff; Byte.xfe] /\
    Utf8.decode [Byte.xff; Byte.xfe] = None /\
    load_students_raw (list N) Utf8.decode json_loads undecodable_disk stamp
      = LoadRaise UnicodeDecodeError undecodable_disk /\
    undecodable_disk !! (STUDENTS_FILE +:+ ".bak_" +:+ stamp) = None.
Proof.
  intros json_loads stamp.
  assert (undecodable_disk !! STUDENTS_FILE = Some [Byte.xff; Byte.xfe]) as Hfile
    by apply lookup_insert_eq.
  split; [exact Hfile|]. split; [reflexivity|]. split.
  - unfold load_students_raw. rewrite Hfile. reflexivity.
  - unfold undecodable_disk.
    rewrite lookup_insert_ne.
    + apply lookup_singleton_ne. unfold STUDENTS_FILE. cbn. discriminate.
    + intros E. apply (backup_name_fresh stamp). symmetry. exact E.
Qed.
